(** * School administration backend (index.js): a shallow embedding

    The program is an Express application over three Mongoose collections
    (teachers, classes, students).  It is embedded here as pure functions:

    - a collection is a finite map from [_id] to document ([gmap]);
    - a request handler or middleware takes the ambient inputs of one
      request ([Env]: signing secret, clock, salt entropy, next ObjectId),
      the request and the store, and either responds or passes on;
    - a thrown exception caught by a handler's [try]/[catch] is a value of
      [StoreError] turned into the 500 response by [guard];
    - the third-party functions the file calls (validator's [isEmail],
      bcryptjs, jsonwebtoken) are the fields of the class [Collaborators]. *)

From Stdlib Require Import NArith String Ascii List Bool Lia.
From Stdlib Require Import DecimalString DecimalN.
From stdpp Require Import strings gmap list fin_maps option.

Local Open Scope string_scope.
Local Open Scope N_scope.

(* ===================================================================== *)
(** ** JavaScript strings *)
(* ===================================================================== *)

Module Js.

(** [s.split(sep)] for a separator of one character: never empty,
    [''.split(' ')] is [['']]. *)
Fixpoint split (sep : ascii) (s : string) : list string :=
  match s with
  | EmptyString => [EmptyString]
  | String c s' =>
      if Ascii.eqb c sep then EmptyString :: split sep s'
      else match split sep s' with
           | w :: ws => String c w :: ws
           | [] => [String c EmptyString]
           end
  end.

(** [arr[i]]: [undefined] (here [None]) past the end. *)
Definition index {A} (arr : list A) (i : nat) : option A := nth_error arr i.

(** Truthiness of a value that is a string or [undefined]. *)
Definition truthy (v : option string) : bool :=
  match v with
  | None => false
  | Some s => negb (String.eqb s "")
  end.

(** [a && b] on such values: [a] itself when falsy, else [b]. *)
Definition and_then (a b : option string) : option string :=
  if truthy a then b else a.

(** White space stripped by [String.prototype.trim], over the
    one-byte characters this model's strings are made of. *)
Definition isSpace (c : ascii) : bool :=
  match N_of_ascii c with
  | 9 | 10 | 11 | 12 | 13 | 32 => true
  | _ => false
  end.

Fixpoint trimStart (s : string) : string :=
  match s with
  | EmptyString => EmptyString
  | String c s' => if isSpace c then trimStart s' else s
  end.

Fixpoint rev_append (s acc : string) : string :=
  match s with
  | EmptyString => acc
  | String c s' => rev_append s' (String c acc)
  end.

Definition rev (s : string) : string := rev_append s EmptyString.

Definition trimEnd (s : string) : string := rev (trimStart (rev s)).

Definition trim (s : string) : string := trimEnd (trimStart s).

(** No occurrence of the character in the string. *)
Fixpoint free_of (c : ascii) (s : string) : bool :=
  match s with
  | EmptyString => true
  | String a s' => negb (Ascii.eqb a c) && free_of c s'
  end.

(** [s.startsWith(p)]. *)
Definition startsWith (p s : string) : bool := String.prefix p s.

End Js.

(* ===================================================================== *)
(** ** Schemas: the three document types *)
(* ===================================================================== *)

(** A Mongo ObjectId (12 bytes), as a number.  Text that does not parse as
    an ObjectId never becomes a value of this type: the cast error Mongoose
    raises for it is outside the model. *)
Definition ObjectId : Type := N.

(** A schema path of type String is absent ([None], JavaScript's
    [undefined]) or holds a string. *)
Definition Field : Type := option string.

(** The [trim: true] setter of a String path. *)
Definition trimmed (f : Field) : Field := Js.trim <$> f.

(** teacherSchema (lines 19-25).  [status] has a default, so it is always
    present once a document is built. *)
Record Teacher : Type := mkTeacher {
  t_name : Field;
  t_email : Field;
  t_password : Field;
  t_address : Field;
  t_status : string
}.

(** studentSchema (lines 29-36). *)
Record Student : Type := mkStudent {
  s_firstName : Field;
  s_lastName : Field;
  s_classId : option ObjectId;
  s_parentName : Field;
  s_address : Field;
  s_city : Field
}.

(** classSchema (lines 40-45). *)
Record Class : Type := mkClass {
  c_standard : Field;
  c_section : Field;
  c_status : string;
  c_teacherId : option ObjectId
}.

(** The database: one collection per model, keyed by [_id]. *)
Record Store : Type := mkStore {
  teachers : gmap ObjectId Teacher;
  classes : gmap ObjectId Class;
  students : gmap ObjectId Student
}.

(** What a Mongoose call can throw inside a handler's [try]. *)
Inductive StoreError : Type :=
| ValidationFailed (path : string)      (* a [required] path is missing *)
| DuplicateKey (index : string)         (* E11000 on [_id] or a unique index *)
| IllegalArguments (what : string)      (* bcryptjs on a non-string *)
| TokenFailure (what : string).         (* jsonwebtoken's sign threw *)

(** A document with its [_id], as the driver returns it. *)
Definition Doc (A : Type) : Type := (ObjectId * A)%type.

(** Results of [populate]: the reference path replaced by the referenced
    document, or by [null] ([None]) when there is none. *)
Record PopulatedClass : Type := mkPopulatedClass {
  pc_id : ObjectId;
  pc_standard : Field;
  pc_section : Field;
  pc_status : string;
  pc_teacherId : option (Doc Teacher)
}.

Record PopulatedStudent : Type := mkPopulatedStudent {
  ps_id : ObjectId;
  ps_firstName : Field;
  ps_lastName : Field;
  ps_classId : option PopulatedClass;
  ps_parentName : Field;
  ps_address : Field;
  ps_city : Field
}.

(* ===================================================================== *)
(** ** Requests, responses and the per-request context *)
(* ===================================================================== *)

(** [req.body] after [express.json()]: every key a handler or a schema
    reads, each absent or present.  Other keys are never read. *)
Record Body : Type := mkBody {
  b_name : Field;
  b_email : Field;
  b_password : Field;
  b_address : Field;
  b_standard : Field;
  b_section : Field;
  b_status : Field;
  b_teacherId : option ObjectId;
  b_firstName : Field;
  b_lastName : Field;
  b_classId : option ObjectId;
  b_parentName : Field;
  b_city : Field
}.

Definition emptyBody : Body :=
  mkBody None None None None None None None None None None None None None.

Record Request : Type := mkRequest {
  authorization : option string;      (* req.headers['authorization'] *)
  params_id : ObjectId;               (* req.params.id *)
  body : Body
}.

(** One entry of [validationResult(req).array()]. *)
Record ValidationError : Type := mkValidationError {
  ve_value : Field;
  ve_msg : string;
  ve_param : string
}.

(** The decoded token payload [{ id, iat, exp }], times in seconds. *)
Record JwtPayload : Type := mkJwtPayload {
  jp_id : ObjectId;
  jp_iat : N;
  jp_exp : N
}.

(** The errors [jwtToken.verify] throws. *)
Inductive JwtError : Type :=
| JsonWebTokenError (message : string)
| TokenExpiredError
| NotBeforeError.

(** The request as middleware sees it: what express-validator has
    collected so far and [req.user]. *)
Record Ctx : Type := mkCtx {
  req : Request;
  errors : list ValidationError;
  user : option JwtPayload
}.

Definition initCtx (r : Request) : Ctx := mkCtx r [] None.

(** Response bodies, one constructor per shape the file sends. *)
Inductive Json : Type :=
| JMessage (message : string)
| JErrors (errs : list ValidationError)
| JUser (usr : Doc Teacher) (message : string)
| JLogin (usr : Doc Teacher) (token : string) (message : string)
| JClass (class : option (Doc Class)) (message : string)
| JStudent (student : option (Doc Student)) (message : string)
| JClasses (list_ : list PopulatedClass)
| JStudents (list_ : list PopulatedStudent)
| JError (e : StoreError).

Record Response : Type := mkResponse {
  status : N;
  payload : Json
}.

(** [res.send(x)] without [res.status]: 200. *)
Definition send (j : Json) : Response := mkResponse 200 j.

(** What one request draws from outside the program. *)
Record Env : Type := mkEnv {
  JWT_SECRET : option string;   (* process.env.JWT_SECRET *)
  clock : N;                    (* Math.floor(Date.now() / 1000) *)
  entropy : string;             (* the random bytes bcryptjs salts with *)
  nextId : ObjectId             (* the _id a [new Model(...)] receives *)
}.

Inductive Outcome : Type :=
| Next (c : Ctx) (st : Store)          (* next() *)
| Respond (st : Store) (r : Response). (* res...send / json *)

Definition Middleware : Type := Env -> Ctx -> Store -> Outcome.

(** Express runs a route's functions in order until one responds. *)
Fixpoint run (ms : list Middleware) (env : Env) (c : Ctx) (st : Store)
  : Store * option Response :=
  match ms with
  | [] => (st, None)
  | m :: rest =>
      match m env c st with
      | Respond st' r => (st', Some r)
      | Next c' st' => run rest env c' st'
      end
  end.

(** The third-party functions index.js calls. *)
Class Collaborators : Type := mkCollaborators {
  (** validator's [isEmail]. *)
  isEmail : string -> bool;
  (** [bcrypt.hash(password, rounds)], its salt drawn from the entropy. *)
  bcrypt_hash : string -> N -> string -> string;
  (** [bcrypt.compare(candidate, hash)]. *)
  bcrypt_compare : string -> string -> bool;
  (** [jwtToken.sign({ id }, secret, { expiresIn })] at a clock value,
      [None] when it throws. *)
  jwt_sign : ObjectId -> option string -> N -> N -> option string;
  (** [jwtToken.verify(token, secret)] at a clock value. *)
  jwt_verify : string -> option string -> N -> JwtError + JwtPayload
}.

(* ===================================================================== *)
(** ** Mongoose models: queries and writes *)
(* ===================================================================== *)

Module Model.

(** [Teacher.findOne({ email })].  A filter key that is [undefined] is
    dropped, so the query is [findOne({})]; otherwise the value goes
    through the path's setter and is matched exactly. *)
Definition findOneByEmail (email : Field) (ts : gmap ObjectId Teacher)
  : option (Doc Teacher) :=
  match email with
  | None => head (map_to_list ts)
  | Some e =>
      snd <$> list_find (fun d : Doc Teacher => t_email d.2 = Some (Js.trim e))
                        (map_to_list ts)
  end.

(** The unique index on [email]. *)
Definition emailIndexed (email : Field) (ts : gmap ObjectId Teacher) : bool :=
  bool_decide (Exists (fun d : Doc Teacher => t_email d.2 = email) (map_to_list ts)).

(** [newTeacher.save()]. *)
Definition saveTeacher (id : ObjectId) (t : Teacher) (ts : gmap ObjectId Teacher)
  : StoreError + gmap ObjectId Teacher :=
  match ts !! id with
  | Some _ => inl (DuplicateKey "_id")
  | None =>
      if emailIndexed (t_email t) ts then inl (DuplicateKey "email")
      else inr (<[id := t]> ts)
  end.

(** The [required: true] validator of a String path. *)
Definition required (f : Field) : bool := Js.truthy f.

(** [newClass.save()]: validation, then insertion. *)
Definition saveClass (id : ObjectId) (c : Class) (cs : gmap ObjectId Class)
  : StoreError + gmap ObjectId Class :=
  if negb (required (c_standard c)) then inl (ValidationFailed "standard")
  else if negb (required (c_section c)) then inl (ValidationFailed "section")
  else match cs !! id with
       | Some _ => inl (DuplicateKey "_id")
       | None => inr (<[id := c]> cs)
       end.

(** [newStudent.save()]. *)
Definition saveStudent (id : ObjectId) (s : Student) (ss : gmap ObjectId Student)
  : StoreError + gmap ObjectId Student :=
  match ss !! id with
  | Some _ => inl (DuplicateKey "_id")
  | None => inr (<[id := s]> ss)
  end.

(** A key of the update object replaces the stored value; an absent key
    leaves it. *)
Definition set_path {A} (new : option A) (old : option A) : option A :=
  match new with
  | Some v => Some v
  | None => old
  end.

Definition updateClass (b : Body) (c : Class) : Class :=
  {| c_standard := set_path (b_standard b) (c_standard c);
     c_section := set_path (b_section b) (c_section c);
     c_status := default (c_status c) (b_status b);
     c_teacherId := set_path (b_teacherId b) (c_teacherId c) |}.

Definition updateStudent (b : Body) (s : Student) : Student :=
  {| s_firstName := set_path (trimmed (b_firstName b)) (s_firstName s);
     s_lastName := set_path (trimmed (b_lastName b)) (s_lastName s);
     s_classId := set_path (b_classId b) (s_classId s);
     s_parentName := set_path (trimmed (b_parentName b)) (s_parentName s);
     s_address := set_path (trimmed (b_address b)) (s_address s);
     s_city := set_path (trimmed (b_city b)) (s_city s) |}.

(** [Model.findByIdAndUpdate(id, update, { new: true })]: the new
    document, or [null] when no document has the id. *)
Definition findByIdAndUpdate {A} (f : A -> A) (id : ObjectId) (m : gmap ObjectId A)
  : gmap ObjectId A * option (Doc A) :=
  match m !! id with
  | None => (m, None)
  | Some d => (<[id := f d]> m, Some (id, f d))
  end.

(** [Model.findByIdAndDelete(id)]. *)
Definition findByIdAndDelete {A} (id : ObjectId) (m : gmap ObjectId A)
  : gmap ObjectId A := delete id m.

(** [populate('teacherId')] on one class. *)
Definition populateClass (st : Store) (d : Doc Class) : PopulatedClass :=
  {| pc_id := d.1;
     pc_standard := c_standard d.2;
     pc_section := c_section d.2;
     pc_status := c_status d.2;
     pc_teacherId :=
       tid ← c_teacherId d.2; t ← teachers st !! tid; Some (tid, t) |}.

(** [populate({ path: 'classId', populate: { path: 'teacherId' } })] on
    one student. *)
Definition populateStudent (st : Store) (d : Doc Student) : PopulatedStudent :=
  {| ps_id := d.1;
     ps_firstName := s_firstName d.2;
     ps_lastName := s_lastName d.2;
     ps_classId :=
       cid ← s_classId d.2; c ← classes st !! cid; Some (populateClass st (cid, c));
     ps_parentName := s_parentName d.2;
     ps_address := s_address d.2;
     ps_city := s_city d.2 |}.

(** [Class.find().populate(...)] and [Student.find().populate(...)]. *)
Definition findClasses (st : Store) : list PopulatedClass :=
  populateClass st <$> map_to_list (classes st).

Definition findStudents (st : Store) : list PopulatedStudent :=
  populateStudent st <$> map_to_list (students st).

End Model.

(* ===================================================================== *)
(** ** The application: validators, the token gate, the handlers *)
(* ===================================================================== *)

Section App.
Context {ext : Collaborators}.

(** *** express-validator chains (lines 51-64) *)

(** express-validator turns the value under test into a string first;
    [undefined] becomes the empty string. *)
Definition toString (f : Field) : string := default "" f.

(** One [check(field, message).<validator>()]. *)
Record Check : Type := mkCheck {
  ck_param : string;
  ck_read : Body -> Field;
  ck_msg : string;
  ck_passes : string -> bool
}.

(** [.not().isEmpty()] *)
Definition notEmpty (s : string) : bool := negb (String.eqb s "").

(** [.isLength({ min })] *)
Definition isLength (min : nat) (s : string) : bool :=
  bool_decide (min ≤ String.length s)%nat.

Definition teacherRegistrationValidator : list Check :=
  [ mkCheck "name" b_name "Name is required" notEmpty;
    mkCheck "email" b_email "Email is required" notEmpty;
    mkCheck "email" b_email "Email is invalid" isEmail;
    mkCheck "password" b_password "Password is required" notEmpty;
    mkCheck "password" b_password
            "Password must be at least 8 characters long" (isLength 8) ].

Definition teacherLoginValidator : list Check :=
  [ mkCheck "email" b_email "Email is required" notEmpty;
    mkCheck "email" b_email "Email is invalid" isEmail;
    mkCheck "password" b_password "Password is required" notEmpty ].

Definition violates (c : Check) (b : Body) : bool :=
  negb (ck_passes c (toString (ck_read c b))).

Definition violation (c : Check) (b : Body) : ValidationError :=
  mkValidationError (ck_read c b) (ck_msg c) (ck_param c).

(** A chain used as middleware: it records its violation on the request
    and always calls [next()]. *)
Definition checkMiddleware (c : Check) : Middleware :=
  fun _ ctx st =>
    if violates c (body (req ctx))
    then Next (mkCtx (req ctx)
                     (errors ctx ++ [violation c (body (req ctx))])
                     (user ctx)) st
    else Next ctx st.

(** *** authenticateToken (lines 67-79) *)

Definition unauthenticated : Response :=
  mkResponse 401 (JMessage "Access Denied: No Token Provided").

Definition badToken : Response :=
  mkResponse 400 (JMessage "Invalid Token").

(** [authHeader && authHeader.split(' ')[1]] *)
Definition tokenOf (authHeader : option string) : option string :=
  Js.and_then authHeader
    (h ← authHeader; Js.index (Js.split " "%char h) 1).

Definition authenticateToken : Middleware :=
  fun env ctx st =>
    let token := tokenOf (authorization (req ctx)) in
    if negb (Js.truthy token) then Respond st unauthenticated
    else
      match jwt_verify (toString token) (JWT_SECRET env) (clock env) with
      | inr verified => Next (mkCtx (req ctx) (errors ctx) (Some verified)) st
      | inl _ => Respond st badToken
      end.

(** *** Handlers *)

(** [catch (error) { res.status(500).send(error) }].  Every handler
    writes at most once and last, so the store at the [catch] is the
    store the handler started with. *)
Definition guard (st : Store) (r : StoreError + Store * Response) : Outcome :=
  match r with
  | inr (st', resp) => Respond st' resp
  | inl e => Respond st (mkResponse 500 (JError e))
  end.

(** [expiresIn: "1h"], in seconds. *)
Definition one_hour : N := 3600.

(** The cost factor passed to [bcrypt.hash]. *)
Definition rounds : N := 10.

Definition invalidLogin : Response :=
  mkResponse 400 (JMessage "Invalid email or password").

(** POST /register (lines 84-115) *)
Definition register : Middleware :=
  fun env ctx st =>
    if negb (bool_decide (errors ctx = []))
    then Respond st (mkResponse 400 (JErrors (errors ctx)))
    else
      let b := body (req ctx) in
      guard st
        match Model.findOneByEmail (b_email b) (teachers st) with
        | Some _ => inr (st, mkResponse 400 (JMessage "Email already exists"))
        | None =>
            match b_password b with
            | None => inl (IllegalArguments "undefined, number")
            | Some password =>
                let hashedPassword := bcrypt_hash password rounds (entropy env) in
                let newTeacher :=
                  {| t_name := trimmed (b_name b);
                     t_email := trimmed (b_email b);
                     t_password := trimmed (Some hashedPassword);
                     t_address := trimmed (b_address b);
                     t_status := "ACTIVE" |} in
                match Model.saveTeacher (nextId env) newTeacher (teachers st) with
                | inl e => inl e
                | inr ts =>
                    inr (mkStore ts (classes st) (students st),
                         send (JUser (nextId env, newTeacher)
                                     "Registration is done successfully"))
                end
            end
        end.

(** POST /login (lines 118-144) *)
Definition login : Middleware :=
  fun env ctx st =>
    if negb (bool_decide (errors ctx = []))
    then Respond st (mkResponse 400 (JErrors (errors ctx)))
    else
      let b := body (req ctx) in
      guard st
        match Model.findOneByEmail (b_email b) (teachers st) with
        | None => inr (st, invalidLogin)
        | Some teacher =>
            match b_password b, t_password teacher.2 with
            | Some password, Some hash =>
                if negb (bcrypt_compare password hash) then inr (st, invalidLogin)
                else
                  match jwt_sign teacher.1 (JWT_SECRET env) one_hour (clock env) with
                  | None => inl (TokenFailure "sign")
                  | Some token =>
                      inr (st, send (JLogin teacher token "Login successful"))
                  end
            | _, _ => inl (IllegalArguments "compare")
            end
        end.

(** POST /class (lines 147-157) *)
Definition postClass : Middleware :=
  fun env ctx st =>
    let b := body (req ctx) in
    let newClass :=
      {| c_standard := b_standard b;
         c_section := b_section b;
         c_status := "ACTIVE";
         c_teacherId := b_teacherId b |} in
    guard st
      match Model.saveClass (nextId env) newClass (classes st) with
      | inl e => inl e
      | inr cs =>
          inr (mkStore (teachers st) cs (students st),
               send (JClass (Some (nextId env, newClass)) "Class added successfully"))
      end.

(** PUT /class/:id (lines 159-168) *)
Definition putClass : Middleware :=
  fun env ctx st =>
    let id := params_id (req ctx) in
    let '(cs, updatedClass) :=
      Model.findByIdAndUpdate (Model.updateClass (body (req ctx))) id (classes st) in
    guard st
      (inr (mkStore (teachers st) cs (students st),
            send (JClass updatedClass "Class updated successfully"))).

(** DELETE /class/:id (lines 170-179) *)
Definition deleteClass : Middleware :=
  fun env ctx st =>
    let id := params_id (req ctx) in
    guard st
      (inr (mkStore (teachers st) (Model.findByIdAndDelete id (classes st)) (students st),
            send (JMessage "Class deleted successfully"))).

(** GET /classes (lines 181-189) *)
Definition getClasses : Middleware :=
  fun env ctx st => guard st (inr (st, send (JClasses (Model.findClasses st)))).

(** POST /student (lines 192-202) *)
Definition postStudent : Middleware :=
  fun env ctx st =>
    let b := body (req ctx) in
    let newStudent :=
      {| s_firstName := trimmed (b_firstName b);
         s_lastName := trimmed (b_lastName b);
         s_classId := b_classId b;
         s_parentName := trimmed (b_parentName b);
         s_address := trimmed (b_address b);
         s_city := trimmed (b_city b) |} in
    guard st
      match Model.saveStudent (nextId env) newStudent (students st) with
      | inl e => inl e
      | inr ss =>
          inr (mkStore (teachers st) (classes st) ss,
               send (JStudent (Some (nextId env, newStudent))
                              "Student added successfully"))
      end.

(** PUT /student/:id (lines 204-213) *)
Definition putStudent : Middleware :=
  fun env ctx st =>
    let id := params_id (req ctx) in
    let '(ss, updatedStudent) :=
      Model.findByIdAndUpdate (Model.updateStudent (body (req ctx))) id (students st) in
    guard st
      (inr (mkStore (teachers st) (classes st) ss,
            send (JStudent updatedStudent "Student updated successfully"))).

(** DELETE /student/:id (lines 215-224) *)
Definition deleteStudent : Middleware :=
  fun env ctx st =>
    let id := params_id (req ctx) in
    guard st
      (inr (mkStore (teachers st) (classes st) (Model.findByIdAndDelete id (students st)),
            send (JMessage "Student deleted successfully"))).

(** GET /students (lines 226-237) and GET /public/students (240-251):
    the same handler body. *)
Definition getStudents : Middleware :=
  fun env ctx st => guard st (inr (st, send (JStudents (Model.findStudents st)))).

(** *** The routing table *)

Inductive Endpoint : Type :=
| PostRegister | PostLogin
| PostClass | PutClass | DeleteClass | GetClasses
| PostStudent | PutStudent | DeleteStudent | GetStudents
| GetPublicStudents.

(** The functions each [app.<method>(path, ...)] registers, in order. *)
Definition chain (ep : Endpoint) : list Middleware :=
  match ep with
  | PostRegister => (checkMiddleware <$> teacherRegistrationValidator) ++ [register]
  | PostLogin => (checkMiddleware <$> teacherLoginValidator) ++ [login]
  | PostClass => [authenticateToken; postClass]
  | PutClass => [authenticateToken; putClass]
  | DeleteClass => [authenticateToken; deleteClass]
  | GetClasses => [authenticateToken; getClasses]
  | PostStudent => [authenticateToken; postStudent]
  | PutStudent => [authenticateToken; putStudent]
  | DeleteStudent => [authenticateToken; deleteStudent]
  | GetStudents => [authenticateToken; getStudents]
  | GetPublicStudents => [getStudents]
  end.

(** Every operation except registration, login and the public listing. *)
Definition protected (ep : Endpoint) : bool :=
  match ep with
  | PostRegister | PostLogin | GetPublicStudents => false
  | _ => true
  end.

Definition serve (ep : Endpoint) (env : Env) (r : Request) (st : Store)
  : Store * option Response :=
  run (chain ep) env (initCtx r) st.

End App.

(* ===================================================================== *)
(** ** TokenService: issue and verify *)
(* ===================================================================== *)

(** jsonwebtoken is not part of the repository; index.js only calls its
    [sign] and [verify].  The model below follows the specification's
    description of the token service: a self-contained token carrying the
    identity claim and an expiry instant, a keyed signature over both, and
    a verification that checks structure, signature and expiry.  The keyed
    hash is a parameter. *)
Module TokenService.
Section WithMac.

(** The keyed hash (HMAC) of a message under a secret. *)
Variable hmac : string -> string -> string.

(** Decimal text of a number and its reading. *)
Definition dec (n : N) : string := NilEmpty.string_of_uint (N.to_uint n).

Definition undec (s : string) : option N :=
  N.of_uint <$> NilEmpty.uint_of_string s.

Definition hexDigits : list ascii :=
  ["0"; "1"; "2"; "3"; "4"; "5"; "6"; "7";
   "8"; "9"; "a"; "b"; "c"; "d"; "e"; "f"]%char.

Definition hexDigit (n : N) : ascii := nth (N.to_nat n) hexDigits "0"%char.

(** Text armour of a signature: two hexadecimal digits per byte, so the
    armoured text holds neither the separator nor a space. *)
Fixpoint armour (s : string) : string :=
  match s with
  | EmptyString => EmptyString
  | String c s' =>
      String (hexDigit (N_of_ascii c / 16))
             (String (hexDigit (N_of_ascii c mod 16)) (armour s'))
  end.

Definition header : string := "HS256".

(** Modelled from the spec: the payload segment of a token, "embedding
    the identity claim and an expiry timestamp" (with the issue time). *)
Definition encodePayload (p : JwtPayload) : string :=
  dec (jp_id p) +:+ "," +:+ dec (jp_iat p) +:+ "," +:+ dec (jp_exp p).

(** Modelled from the spec: the reading of a payload segment, the
    inverse of [encodePayload]; anything else is malformed. *)
Definition decodePayload (s : string) : option JwtPayload :=
  match Js.split ","%char s with
  | [a; b; c] =>
      id ← undec a; iat ← undec b; exp ← undec c;
      Some (mkJwtPayload id iat exp)
  | _ => None
  end.

(** Modelled from the spec: the signature segment of a "signed" token,
    the armoured keyed hash of the segments before it. *)
Definition signature (secret input : string) : string :=
  armour (hmac secret input).

Definition signingInput (p : JwtPayload) : string :=
  header +:+ "." +:+ encodePayload p.

(** Modelled from the spec: the token carrying a payload, signed under a
    secret (header, payload and signature, separated by dots). *)
Definition tokenFor (secret : string) (p : JwtPayload) : string :=
  signingInput p +:+ "." +:+ signature secret (signingInput p).

(** Modelled from the spec: [issue(identityClaim, secret, ttl)], which
    "produces a signed, self-contained token embedding the identity
    claim and an expiry timestamp derived from ttl"; jsonwebtoken's
    [sign] is not in the repository.  Without a secret it throws. *)
Definition issue (id : ObjectId) (secret : option string) (ttl now : N)
  : option string :=
  match secret with
  | None => None
  | Some k => Some (tokenFor k (mkJwtPayload id now (now + ttl)))
  end.

(** Modelled from the spec: [verify(token, secret)], which "checks
    signature integrity and expiry"; jsonwebtoken's [verify] is not in
    the repository.  The three failure kinds stay apart here; it is the
    caller that collapses them. *)
Definition verify (token : string) (secret : option string) (now : N)
  : JwtError + JwtPayload :=
  match Js.split "."%char token with
  | [h; p; s] =>
      match decodePayload p with
      | None => inl (JsonWebTokenError "invalid token")
      | Some pl =>
          match secret with
          | None => inl (JsonWebTokenError "secret or public key must be provided")
          | Some k =>
              if negb (String.eqb h header)
              then inl (JsonWebTokenError "invalid algorithm")
              else if negb (String.eqb s (signature k (h +:+ "." +:+ p)))
              then inl (JsonWebTokenError "invalid signature")
              else if jp_exp pl <=? now then inl TokenExpiredError
              else inr pl
          end
      end
  | _ => inl (JsonWebTokenError "jwt malformed")
  end.

End WithMac.
End TokenService.

(** Collaborators whose token functions are the token service over a
    given keyed hash; the other functions are kept. *)
Definition withTokenService (hmac : string -> string -> string)
  (ext : Collaborators) : Collaborators :=
  {| isEmail := isEmail;
     bcrypt_hash := bcrypt_hash;
     bcrypt_compare := bcrypt_compare;
     jwt_sign := TokenService.issue hmac;
     jwt_verify := TokenService.verify hmac |}.

(* ===================================================================== *)
(** ** Stand-ins for running the handlers on concrete requests *)
(* ===================================================================== *)

(** Executable instances of the collaborators.  They are simple functions
    with the interfaces of the real ones, used only to evaluate the
    embedding on examples; no general theorem below depends on them. *)
Module Sample.

Definition emailish (s : string) : bool :=
  match Js.split "@"%char s with
  | [l; d] => negb (String.eqb l "") && negb (String.eqb d "")
              && Js.free_of " "%char s
  | _ => false
  end.

Definition digest (salt plaintext : string) : string :=
  Js.rev plaintext +:+ salt.

Definition hash (plaintext : string) (cost : N) (salt : string) : string :=
  "$2a$" +:+ TokenService.dec cost +:+ "$" +:+ salt +:+ "$" +:+ digest salt plaintext.

Definition compare (candidate hash : string) : bool :=
  match Js.split "$"%char hash with
  | [_; _; _; salt; d] => String.eqb d (digest salt candidate)
  | _ => false
  end.

Definition hmac (secret message : string) : string := secret +:+ message.

#[export] Instance collaborators : Collaborators :=
  {| isEmail := emailish;
     bcrypt_hash := hash;
     bcrypt_compare := compare;
     jwt_sign := TokenService.issue hmac;
     jwt_verify := TokenService.verify hmac |}.

Definition env : Env :=
  {| JWT_SECRET := Some "s3cret"; clock := 1000; entropy := "NaCl"; nextId := 7 |}.

Definition alice : Teacher :=
  {| t_name := Some "A"; t_email := Some "a@x.com";
     t_password := Some (hash "password1" 10 "NaCl");
     t_address := None; t_status := "ACTIVE" |}.

Definition class5A : Class :=
  {| c_standard := Some "5"; c_section := Some "A";
     c_status := "ACTIVE"; c_teacherId := Some 1 |}.

(** A student of class 2 and one whose class reference dangles. *)
Definition bob : Student :=
  mkStudent (Some "Bob") (Some "B") (Some 2) None None None.

Definition carol : Student :=
  mkStudent (Some "Carol") (Some "C") (Some 99) None None None.

Definition store : Store :=
  {| teachers := {[ 1 := alice ]};
     classes := {[ 2 := class5A ]};
     students := <[ 3 := bob ]> {[ 4 := carol ]} |}.

(** The token a login of teacher 1 at clock 1000 returns. *)
Definition token : string :=
  TokenService.tokenFor hmac "s3cret" (mkJwtPayload 1 1000 4600).

Definition request (auth : option string) (id : ObjectId) (b : Body) : Request :=
  mkRequest auth id b.

Definition credentials (name email password : Field) : Body :=
  mkBody name email password None None None None None None None None None None.

(** Requests for the gate: no header, and a given header. *)
Definition bare : Request := request None 0 emptyBody.

Definition with_header (h : string) : Request := request (Some h) 0 emptyBody.

(** A request for identity [id] carrying the sample token. *)
Definition authorised (id : ObjectId) : Request :=
  request (Some ("Bearer " +:+ token)) id emptyBody.

(** Three seconds after the sample token's expiry instant. *)
Definition late : Env :=
  {| JWT_SECRET := Some "s3cret"; clock := 4603; entropy := "NaCl"; nextId := 7 |}.

(** An empty name and a password of five characters. *)
Definition twoFaults : Request :=
  request None 0 (credentials (Some "") (Some "b@x.com") (Some "short")).

(** An empty name with the email of a registered teacher. *)
Definition emptyNameTakenEmail : Request :=
  request None 0 (credentials (Some "") (Some "a@x.com") (Some "password1")).

Definition takenEmail : Request :=
  request None 0 (credentials (Some "B") (Some "a@x.com") (Some "password1")).



Definition validLogin : Request :=
  request None 0 (credentials None (Some "a@x.com") (Some "password1")).

(** A registration with an email no stored teacher has. *)
Definition newTeacherRequest : Request :=
  request None 0 (credentials (Some "B") (Some "b@x.com") (Some "password1")).

(** A class whose teacher reference matches no stored teacher. *)
Definition newClassRequest : Request :=
  request None 0
    (mkBody None None None None (Some "6") (Some "B") None (Some 42)
            None None None None None).

End Sample.

(** Further sample data, built on the samples above. *)
Module Scenario.


(** A later request: another clock value, another fresh [_id]. *)
Definition later : Env :=
  {| JWT_SECRET := Some "s3cret"; clock := 2000; entropy := "KCl"; nextId := 8 |}.

(** The teacher [Sample.newTeacherRequest] registers, and the store after. *)
Definition newTeacher : Teacher :=
  {| t_name := Some "B"; t_email := Some "b@x.com";
     t_password := Some (Js.trim (Sample.hash "password1" 10 "NaCl"));
     t_address := None; t_status := "ACTIVE" |}.

Definition registered : Store :=
  mkStore (<[7 := newTeacher]> (teachers Sample.store))
          (classes Sample.store) (students Sample.store).

(** The same email again, under another name and password. *)
Definition sameEmailAgain : Request :=
  Sample.request None 0
    (Sample.credentials (Some "C") (Some "b@x.com") (Some "different1")).

Definition newTeacherLogin : Request :=
  Sample.request None 0
    (Sample.credentials None (Some "b@x.com") (Some "password1")).

(** A valid token for another identity than [Sample.token]'s. *)
Definition otherToken : string :=
  TokenService.tokenFor Sample.hmac "s3cret" (mkJwtPayload 2 1000 4600).


Definition studentBody (firstName : Field) (classId : option ObjectId) : Body :=
  mkBody None None None None None None None None firstName None classId None None.

Definition asTeacher (tok : string) (id : ObjectId) (b : Body) : Request :=
  Sample.request (Some ("Bearer " +:+ tok)) id b.

(** An update that blanks [standard] and sets a status outside the enum. *)
Definition blankingBody : Body :=
  mkBody None None None None (Some "") None (Some "RETIRED") None
         None None None None None.

(** A new student of class 2, and the store once it is added as 7. *)
Definition dan : Student := mkStudent (Some "Dan") None (Some 2) None None None.

Definition withDan : Store :=
  mkStore (teachers Sample.store) (classes Sample.store)
          (<[7 := dan]> (students Sample.store)).

End Scenario.

(* ===================================================================== *)
(** ** Specification vocabulary *)
(* ===================================================================== *)

Section Vocabulary.
Context {ext : Collaborators}.

(** The request carries nothing the gate takes for a token. *)
Definition noToken (r : Request) : Prop :=
  Js.truthy (tokenOf (authorization r)) = false.

(** The gate finds the token [t] in the request. *)
Definition carriesToken (r : Request) (t : string) : Prop :=
  tokenOf (authorization r) = Some t /\ t <> "".

(** The request carries a token that jsonwebtoken refuses. *)
Definition failsVerification (env : Env) (r : Request) : Prop :=
  exists t e, carriesToken r t
              /\ jwt_verify t (JWT_SECRET env) (clock env) = inl e.

(** The request carries a token that jsonwebtoken accepts. *)
Definition authenticated (env : Env) (r : Request) : Prop :=
  exists t v, carriesToken r t
              /\ jwt_verify t (JWT_SECRET env) (clock env) = inr v.

(** The checks of a validator list that the body violates, in order. *)
Definition violated (cs : list Check) (b : Body) : list Check :=
  List.filter (fun c => violates c b) cs.

Definition violations (cs : list Check) (b : Body) : list ValidationError :=
  (fun c => violation c b) <$> violated cs b.

Definition passesValidation (cs : list Check) (b : Body) : Prop :=
  violated cs b = [].

(** Some stored teacher has this email, as the schema's setter stores it. *)
Definition emailRegistered (st : Store) (email : string) : Prop :=
  exists id t, teachers st !! id = Some t /\ t_email t = Some (Js.trim email).

End Vocabulary.

(** The handler an endpoint's route ends with. *)
Definition handlerOf {ext : Collaborators} (ep : Endpoint) : Middleware :=
  match ep with
  | PostRegister => register
  | PostLogin => login
  | PostClass => postClass
  | PutClass => putClass
  | DeleteClass => deleteClass
  | GetClasses => getClasses
  | PostStudent => postStudent
  | PutStudent => putStudent
  | DeleteStudent => deleteStudent
  | GetStudents | GetPublicStudents => getStudents
  end.

(** The collections whose model an endpoint's handler calls a write on. *)
Definition writesTeachers (ep : Endpoint) : bool :=
  match ep with
  | PostRegister => true
  | _ => false
  end.

Definition writesClasses (ep : Endpoint) : bool :=
  match ep with
  | PostClass | PutClass | DeleteClass => true
  | _ => false
  end.

Definition writesStudents (ep : Endpoint) : bool :=
  match ep with
  | PostStudent | PutStudent | DeleteStudent => true
  | _ => false
  end.

(** No two stored teachers have the same email. *)
Definition uniqueEmails (st : Store) : Prop :=
  forall id1 id2 t1 t2,
    teachers st !! id1 = Some t1 -> teachers st !! id2 = Some t2 ->
    t_email t1 = t_email t2 -> id1 = id2.

(** Two requests that differ at most in their headers. *)
Definition sameDemand (r1 r2 : Request) : Prop :=
  params_id r1 = params_id r2 /\ body r1 = body r2.





(* ===================================================================== *)
(** ** Facts about strings *)
(* ===================================================================== *)

Module JsFacts.

Lemma split_not_nil sep s : Js.split sep s <> [].
Proof.
  destruct s as [|c s]; simpl; [discriminate|].
  destruct (Ascii.eqb c sep); [discriminate|].
  destruct (Js.split sep s); discriminate.
Qed.

(** A word free of the separator is a single piece. *)
Lemma split_free sep w : Js.free_of sep w = true -> Js.split sep w = [w].
Proof.
  induction w as [|a w IH]; simpl; [reflexivity|].
  intros [Ha Hw]%andb_prop.
  apply negb_true_iff in Ha. rewrite Ha, (IH Hw). reflexivity.
Qed.

(** Splitting stops a separator-free word at the first separator. *)
Lemma split_app sep w rest :
  Js.free_of sep w = true ->
  Js.split sep (w +:+ String sep rest) = w :: Js.split sep rest.
Proof.
  induction w as [|a w IH]; simpl.
  - intros _. rewrite Ascii.eqb_refl. reflexivity.
  - intros [Ha Hw]%andb_prop.
    apply negb_true_iff in Ha. rewrite Ha, (IH Hw). reflexivity.
Qed.

Lemma app_sep_nonempty w c rest : String.eqb (w +:+ String c rest) "" = false.
Proof. destruct w; reflexivity. Qed.

Lemma free_of_app c u v :
  Js.free_of c (u +:+ v) = Js.free_of c u && Js.free_of c v.
Proof.
  induction u as [|a u IH]; simpl; [reflexivity|].
  rewrite IH, andb_assoc. reflexivity.
Qed.

Lemma eqb_neq_false (s t : string) : s <> t -> String.eqb s t = false.
Proof. intros Hne. apply String.eqb_neq. exact Hne. Qed.

End JsFacts.

(* ===================================================================== *)
(** ** The token gate *)
(* ===================================================================== *)

Section GateFacts.
Context {ext : Collaborators}.

Lemma tokenOf_absent : tokenOf None = None.
Proof. reflexivity. Qed.

(** A header that is one word holds no token. *)
Lemma tokenOf_one_word scheme :
  Js.free_of " " scheme = true -> Js.truthy (tokenOf (Some scheme)) = false.
Proof.
  intros Hfree. unfold tokenOf, Js.and_then. simpl.
  destruct (String.eqb scheme "") eqn:He; simpl; [now rewrite He|].
  rewrite (JsFacts.split_free _ _ Hfree). reflexivity.
Qed.

(** The token is the second word, whatever the first word is. *)
Lemma tokenOf_second_word scheme tok :
  Js.free_of " " scheme = true -> Js.free_of " " tok = true ->
  tokenOf (Some (scheme +:+ " " +:+ tok)) = Some tok.
Proof.
  intros Hs Ht. unfold tokenOf, Js.and_then.
  change (scheme +:+ " " +:+ tok) with (scheme +:+ String " " tok).
  simpl. rewrite JsFacts.app_sep_nonempty. simpl.
  rewrite (JsFacts.split_app _ _ _ Hs), (JsFacts.split_free _ _ Ht).
  reflexivity.
Qed.

Lemma carriesToken_truthy r t :
  carriesToken r t -> Js.truthy (tokenOf (authorization r)) = true.
Proof.
  intros [-> Hne]. simpl. now rewrite (JsFacts.eqb_neq_false _ _ Hne).
Qed.

(** The three ways through the gate. *)
Lemma gate_no_token env ctx st :
  noToken (req ctx) -> authenticateToken env ctx st = Respond st unauthenticated.
Proof. unfold noToken, authenticateToken. now intros ->. Qed.

Lemma gate_bad_token env ctx st :
  failsVerification env (req ctx) ->
  authenticateToken env ctx st = Respond st badToken.
Proof.
  intros (t & e & Hc & Hv). unfold authenticateToken.
  rewrite (carriesToken_truthy _ _ Hc). destruct Hc as [-> _].
  simpl. now rewrite Hv.
Qed.

Lemma gate_accepts env ctx st t v :
  carriesToken (req ctx) t ->
  jwt_verify t (JWT_SECRET env) (clock env) = inr v ->
  authenticateToken env ctx st = Next (mkCtx (req ctx) (errors ctx) (Some v)) st.
Proof.
  intros Hc Hv. unfold authenticateToken.
  rewrite (carriesToken_truthy _ _ Hc). destruct Hc as [-> _].
  simpl. now rewrite Hv.
Qed.

(** Every protected route starts with the gate, followed by one handler. *)
Lemma protected_chain ep :
  protected ep = true -> exists handler, chain ep = [authenticateToken; handler].
Proof. destruct ep; simpl; intros Hp; try discriminate; eauto. Qed.

(** A rejection is the whole of the route's effect, whatever follows. *)
Lemma run_gate_no_token rest env r st :
  noToken r ->
  run (authenticateToken :: rest) env (initCtx r) st = (st, Some unauthenticated).
Proof. intros Hn. simpl. now rewrite gate_no_token. Qed.

Lemma run_gate_bad_token rest env r st :
  failsVerification env r ->
  run (authenticateToken :: rest) env (initCtx r) st = (st, Some badToken).
Proof. intros Hf. simpl. now rewrite gate_bad_token. Qed.

Lemma run_gate_accepts handler env r st t v :
  carriesToken r t ->
  jwt_verify t (JWT_SECRET env) (clock env) = inr v ->
  run [authenticateToken; handler] env (initCtx r) st
  = run [handler] env (mkCtx r [] (Some v)) st.
Proof.
  intros Hc Hv. cbn [run]. now rewrite (gate_accepts env (initCtx r) st t v).
Qed.

End GateFacts.

Module GateSamples.

Lemma garbage_fails :
  failsVerification (ext := Sample.collaborators) Sample.env
                    (Sample.with_header "Bearer garbage").
Proof.
  exists "garbage", (JsonWebTokenError "jwt malformed").
  split; [split; [reflexivity|discriminate]|reflexivity].
Qed.

Lemma expired_fails :
  failsVerification (ext := Sample.collaborators) Sample.late
                    (Sample.with_header ("Bearer " +:+ Sample.token)).
Proof.
  exists Sample.token, TokenExpiredError.
  split; [split; [vm_compute; reflexivity|discriminate]|vm_compute; reflexivity].
Qed.

End GateSamples.

Section GateClaims.
Context {ext : Collaborators}.

(** C1.  On every protected endpoint, a request without an
    [Authorization] header, or one whose header yields no token (a lone
    scheme word, or a scheme word followed by a space and nothing), is
    answered 401 "Access Denied: No Token Provided"; a request whose
    token jsonwebtoken refuses, for whatever reason, is answered 400
    "Invalid Token".  In both cases the store is returned as it was and
    the answer is the same whatever functions follow the gate on the
    route: the handler is not run. *)
Theorem gate_rejects_before_handler ep env r st :
  protected ep = true ->
  (authorization r = None -> serve ep env r st = (st, Some unauthenticated))
  /\ (forall scheme, Js.free_of " " scheme = true ->
        authorization r = Some scheme \/ authorization r = Some (scheme +:+ " ") ->
        serve ep env r st = (st, Some unauthenticated))
  /\ (noToken r -> serve ep env r st = (st, Some unauthenticated))
  /\ (failsVerification env r -> serve ep env r st = (st, Some badToken))
  /\ (exists handler,
        chain ep = [authenticateToken; handler]
        /\ forall rest, noToken r \/ failsVerification env r ->
             run (authenticateToken :: rest) env (initCtx r) st
             = serve ep env r st).
Proof.
  intros Hp. destruct (protected_chain ep Hp) as [handler Hch].
  assert (Hno : noToken r -> serve ep env r st = (st, Some unauthenticated)).
  { intros Hn. unfold serve. rewrite Hch. now apply run_gate_no_token. }
  assert (Hbad : failsVerification env r -> serve ep env r st = (st, Some badToken)).
  { intros Hf. unfold serve. rewrite Hch. now apply run_gate_bad_token. }
  split; [|split; [|split; [|split]]].
  - intros Hnone. apply Hno. unfold noToken. now rewrite Hnone.
  - intros scheme Hfree [Hh|Hh]; apply Hno; unfold noToken; rewrite Hh.
    + now apply tokenOf_one_word.
    + change (scheme +:+ " ") with (scheme +:+ " " +:+ "").
      now rewrite tokenOf_second_word.
  - exact Hno.
  - exact Hbad.
  - exists handler. split; [exact Hch|].
    intros rest [Hn|Hf].
    + now rewrite (Hno Hn), run_gate_no_token.
    + now rewrite (Hbad Hf), run_gate_bad_token.
Qed.

(** C6, as the code has it.  The gate never looks at the scheme word:
    for a header made of any word without a space (it may be "Basic",
    "bearer" or empty), one space and a token without a space, the token
    is treated exactly as after "Bearer" -- 401 when it is empty, 400
    when jsonwebtoken refuses it, and otherwise the request goes on with
    the decoded payload attached.  A header with no space in it is
    answered 401. *)
Theorem gate_ignores_scheme_word scheme tok env ctx st :
  Js.free_of " " scheme = true ->
  Js.free_of " " tok = true ->
  (authorization (req ctx) = Some (scheme +:+ " " +:+ tok) ->
   authenticateToken env ctx st
   = if String.eqb tok "" then Respond st unauthenticated
     else match jwt_verify tok (JWT_SECRET env) (clock env) with
          | inr verified => Next (mkCtx (req ctx) (errors ctx) (Some verified)) st
          | inl _ => Respond st badToken
          end)
  /\ (authorization (req ctx) = Some scheme ->
      authenticateToken env ctx st = Respond st unauthenticated).
Proof.
  intros Hs Ht. split; intros Hh.
  - unfold authenticateToken. rewrite Hh, (tokenOf_second_word _ _ Hs Ht).
    simpl. destruct (String.eqb tok ""); reflexivity.
  - apply gate_no_token. unfold noToken. rewrite Hh. now apply tokenOf_one_word.
Qed.

(** C7.  Whatever makes jsonwebtoken refuse a token (malformed text, a
    wrong signature, expiry, at any clock and under any secret), the
    caller of a protected endpoint receives one and the same response,
    400 "Invalid Token": two refused requests cannot be told apart by
    their responses. *)
Theorem verification_failures_indistinguishable ep env1 env2 r1 r2 st1 st2 :
  protected ep = true ->
  failsVerification env1 r1 ->
  failsVerification env2 r2 ->
  snd (serve ep env1 r1 st1) = Some badToken
  /\ snd (serve ep env2 r2 st2) = snd (serve ep env1 r1 st1).
Proof.
  intros Hp H1 H2. destruct (protected_chain ep Hp) as [handler Hch].
  unfold serve. rewrite Hch, !run_gate_bad_token by assumption.
  split; reflexivity.
Qed.

End GateClaims.

Lemma gate_rejects_before_handler_witness :
  serve (ext := Sample.collaborators) GetClasses Sample.env Sample.bare Sample.store
  = (Sample.store, Some unauthenticated)
  /\ serve (ext := Sample.collaborators) PutStudent Sample.env
           (Sample.with_header "Bearer garbage") Sample.store
     = (Sample.store, Some badToken).
Proof.
  split.
  - exact (proj1 (gate_rejects_before_handler (ext := Sample.collaborators)
                    GetClasses Sample.env Sample.bare Sample.store eq_refl)
                 eq_refl).
  - exact (proj1 (proj2 (proj2 (proj2
             (gate_rejects_before_handler (ext := Sample.collaborators)
                PutStudent Sample.env (Sample.with_header "Bearer garbage")
                Sample.store eq_refl))))
             GateSamples.garbage_fails).
Defined.

(** C6, the claim as stated fails: a header that does not begin with
    "Bearer " but carries a valid token as its second word passes the
    gate, and the handler runs. *)
Lemma gate_accepts_basic_scheme :
  Js.startsWith "Bearer " ("Basic " +:+ Sample.token) = false
  /\ serve (ext := Sample.collaborators) GetClasses Sample.env
           (Sample.with_header ("Basic " +:+ Sample.token)) Sample.store
     = (Sample.store, Some (send (JClasses (Model.findClasses Sample.store)))).
Proof. split; vm_compute; reflexivity. Qed.

Lemma gate_ignores_scheme_word_witness :
  authenticateToken (ext := Sample.collaborators) Sample.env
    (initCtx (Sample.with_header ("Basic " +:+ Sample.token))) Sample.store
  = Next (mkCtx (Sample.with_header ("Basic " +:+ Sample.token)) []
                (Some (mkJwtPayload 1 1000 4600))) Sample.store.
Proof.
  exact (proj1 (gate_ignores_scheme_word (ext := Sample.collaborators)
                  "Basic" Sample.token Sample.env
                  (initCtx (Sample.with_header ("Basic " +:+ Sample.token)))
                  Sample.store eq_refl eq_refl) eq_refl).
Defined.

Lemma verification_failures_indistinguishable_witness :
  snd (serve (ext := Sample.collaborators) GetStudents Sample.env
             (Sample.with_header "Bearer garbage") Sample.store)
  = Some badToken
  /\ snd (serve (ext := Sample.collaborators) GetStudents Sample.late
                (Sample.with_header ("Bearer " +:+ Sample.token)) Sample.store)
     = snd (serve (ext := Sample.collaborators) GetStudents Sample.env
                  (Sample.with_header "Bearer garbage") Sample.store).
Proof.
  exact (verification_failures_indistinguishable (ext := Sample.collaborators)
           GetStudents Sample.env Sample.late
           (Sample.with_header "Bearer garbage")
           (Sample.with_header ("Bearer " +:+ Sample.token))
           Sample.store Sample.store eq_refl
           GateSamples.garbage_fails GateSamples.expired_fails).
Defined.

(* ===================================================================== *)
(** ** The validation layer *)
(* ===================================================================== *)

Section ValidationFacts.
Context {ext : Collaborators}.

(** Running the chains of a validator list in front of [k] amounts to
    running [k] with every violation appended, in the list's order. *)
Lemma run_checks cs k env ctx st :
  run ((checkMiddleware <$> cs) ++ k) env ctx st
  = run k env (mkCtx (req ctx)
                     (errors ctx ++ violations cs (body (req ctx)))
                     (user ctx)) st.
Proof.
  revert ctx. induction cs as [|c cs IH]; intros ctx.
  - unfold violations, violated. simpl. rewrite app_nil_r.
    destruct ctx; reflexivity.
  - rewrite fmap_cons. cbn [app run]. unfold checkMiddleware at 1.
    unfold violations, violated in *. cbn [List.filter].
    destruct (violates c (body (req ctx))) eqn:Hv; rewrite IH; simpl.
    + rewrite <- app_assoc. reflexivity.
    + reflexivity.
Qed.

Lemma register_route env r st :
  serve PostRegister env r st
  = run [register] env
        (mkCtx r (violations teacherRegistrationValidator (body r)) None) st.
Proof. unfold serve. cbn [chain]. now rewrite run_checks. Qed.

Lemma login_route env r st :
  serve PostLogin env r st
  = run [login] env (mkCtx r (violations teacherLoginValidator (body r)) None) st.
Proof. unfold serve. cbn [chain]. now rewrite run_checks. Qed.

Lemma violations_nil cs b : violations cs b = [] <-> violated cs b = [].
Proof.
  unfold violations. split; intros Hv.
  - now apply fmap_nil_inv in Hv.
  - now rewrite Hv.
Qed.

Lemma violation_reported cs c b :
  In c cs -> violates c b = true -> In (violation c b) (violations cs b).
Proof.
  intros Hin Hv. unfold violations, violated.
  apply list_elem_of_In, list_elem_of_fmap. exists c. split; [reflexivity|].
  apply list_elem_of_In, filter_In. now split.
Qed.

(** A body that passes validation passes each check. *)
Lemma passes_each cs c b :
  passesValidation cs b -> In c cs -> violates c b = false.
Proof.
  intros Hp Hin. destruct (violates c b) eqn:Hv; [|reflexivity].
  exfalso. assert (Hc : In c (violated cs b)) by (apply filter_In; now split).
  rewrite Hp in Hc. destruct Hc.
Qed.

Lemma notEmpty_Some (f : Field) :
  notEmpty (toString f) = true -> exists s, f = Some s /\ s <> "".
Proof.
  destruct f as [s|]; simpl; [|discriminate].
  unfold notEmpty. intros Hs%negb_true_iff%String.eqb_neq. eauto.
Qed.

(** What a validated login or registration body is known to hold. *)
Lemma login_body_valid b :
  passesValidation teacherLoginValidator b ->
  exists e p, b_email b = Some e /\ e <> "" /\ b_password b = Some p /\ p <> "".
Proof.
  intros Hp.
  pose proof (passes_each _ (mkCheck "email" b_email "Email is required" notEmpty)
                b Hp ltac:(simpl; tauto)) as He.
  pose proof (passes_each _ (mkCheck "password" b_password "Password is required" notEmpty)
                b Hp ltac:(simpl; tauto)) as Hpw.
  unfold violates in He, Hpw. simpl in He, Hpw.
  apply negb_false_iff, notEmpty_Some in He as (e & He & Hne).
  apply negb_false_iff, notEmpty_Some in Hpw as (p & Hpw & Hnp).
  eauto 10.
Qed.


(** A handler started with violations answers with all of them. *)
Lemma register_reports env ctx st :
  errors ctx <> [] ->
  register env ctx st = Respond st (mkResponse 400 (JErrors (errors ctx))).
Proof.
  intros Hne. unfold register.
  rewrite bool_decide_eq_false_2 by exact Hne. reflexivity.
Qed.

Lemma login_reports env ctx st :
  errors ctx <> [] ->
  login env ctx st = Respond st (mkResponse 400 (JErrors (errors ctx))).
Proof.
  intros Hne. unfold login.
  rewrite bool_decide_eq_false_2 by exact Hne. reflexivity.
Qed.

Lemma register_rejects_invalid env r st :
  violated teacherRegistrationValidator (body r) <> [] ->
  serve PostRegister env r st
  = (st, Some (mkResponse 400
       (JErrors (violations teacherRegistrationValidator (body r))))).
Proof.
  intros Hv. rewrite register_route. cbn [run].
  rewrite register_reports; [reflexivity|].
  simpl. now rewrite violations_nil.
Qed.

Lemma login_rejects_invalid env r st :
  violated teacherLoginValidator (body r) <> [] ->
  serve PostLogin env r st
  = (st, Some (mkResponse 400
       (JErrors (violations teacherLoginValidator (body r))))).
Proof.
  intros Hv. rewrite login_route. cbn [run].
  rewrite login_reports; [reflexivity|].
  simpl. now rewrite violations_nil.
Qed.

(** C8.  Registration and login run every check of their validator list
    on the body, whether or not an earlier check failed; when at least
    one fails, the 400 response lists the violation of every failing
    check, in the order of the list, and nothing is written.  So each
    check the body violates has its violation in the response. *)
Theorem validation_reports_every_violation env r st :
  (violated teacherRegistrationValidator (body r) <> [] ->
     serve PostRegister env r st
     = (st, Some (mkResponse 400
          (JErrors (violations teacherRegistrationValidator (body r))))))
  /\ (violated teacherLoginValidator (body r) <> [] ->
        serve PostLogin env r st
        = (st, Some (mkResponse 400
             (JErrors (violations teacherLoginValidator (body r))))))
  /\ (forall cs c, In c cs -> violates c (body r) = true ->
        In (violation c (body r)) (violations cs (body r)))
  /\ (forall cs, length (violations cs (body r))
                 = length (List.filter (fun c => violates c (body r)) cs)).
Proof.
  split; [|split; [|split]].
  - apply register_rejects_invalid.
  - apply login_rejects_invalid.
  - intros cs c. apply violation_reported.
  - intros cs. unfold violations, violated. now rewrite length_fmap.
Qed.

End ValidationFacts.

Module ValidationSamples.

Lemma alice_registered :
  emailRegistered Sample.store "a@x.com".
Proof. exists 1, Sample.alice. split; reflexivity. Qed.

End ValidationSamples.

Lemma validation_reports_every_violation_witness :
  serve (ext := Sample.collaborators) PostRegister Sample.env
        Sample.twoFaults Sample.store
  = (Sample.store,
     Some (mkResponse 400 (JErrors
       [ mkValidationError (Some "") "Name is required" "name";
         mkValidationError (Some "short")
           "Password must be at least 8 characters long" "password" ]))).
Proof.
  exact (proj1 (validation_reports_every_violation (ext := Sample.collaborators)
                  Sample.env Sample.twoFaults Sample.store)
               ltac:(vm_compute; discriminate)).
Defined.

(* ===================================================================== *)
(** ** Registration and login *)
(* ===================================================================== *)

Section AccountFacts.
Context {ext : Collaborators}.

Lemma findOneByEmail_found ts e d :
  Model.findOneByEmail (Some e) ts = Some d ->
  ts !! d.1 = Some d.2 /\ t_email d.2 = Some (Js.trim e).
Proof.
  unfold Model.findOneByEmail. intros Hf.
  apply fmap_Some in Hf as ([i d'] & Hfind & ->).
  apply list_find_Some in Hfind as (Hl & He & _). simpl.
  split; [|exact He].
  apply elem_of_map_to_list. destruct d' as [id t].
  eapply list_elem_of_lookup_2; exact Hl.
Qed.

Lemma findOneByEmail_registered st e :
  emailRegistered st e -> is_Some (Model.findOneByEmail (Some e) (teachers st)).
Proof.
  intros (id & t & Hl & He). unfold Model.findOneByEmail.
  apply fmap_is_Some.
  apply (list_find_elem_of _ _ (id, t)); [|exact He].
  now apply elem_of_map_to_list.
Qed.


(** C3, as the code has it.  A registration request whose email a stored
    teacher already has (compared after the schema's trim) never changes
    the store and is always answered 400; the answer is the duplicate
    error "Email already exists" when the request passes validation, and
    the list of its validation errors when it does not. *)
Theorem duplicate_email_rejected env r st e :
  b_email (body r) = Some e ->
  emailRegistered st e ->
  (passesValidation teacherRegistrationValidator (body r) ->
     serve PostRegister env r st
     = (st, Some (mkResponse 400 (JMessage "Email already exists"))))
  /\ (~ passesValidation teacherRegistrationValidator (body r) ->
      serve PostRegister env r st
      = (st, Some (mkResponse 400
           (JErrors (violations teacherRegistrationValidator (body r))))))
  /\ (exists resp, serve PostRegister env r st = (st, Some resp)
                   /\ status resp = 400).
Proof.
  intros He Hreg.
  assert (Hvalid : passesValidation teacherRegistrationValidator (body r) ->
            serve PostRegister env r st
            = (st, Some (mkResponse 400 (JMessage "Email already exists")))).
  { intros Hp. rewrite register_route. cbn [run]. unfold register.
    cbn [errors req]. rewrite (proj2 (violations_nil _ _) Hp).
    rewrite bool_decide_eq_true_2 by reflexivity. cbn [negb].
    rewrite He. destruct (findOneByEmail_registered st e Hreg) as [d ->].
    reflexivity. }
  split; [exact Hvalid|].
  split; [intros Hinvalid; now apply register_rejects_invalid|].
  destruct (violated teacherRegistrationValidator (body r)) eqn:Hv.
  - eexists. split; [apply Hvalid; exact Hv|reflexivity].
  - pose proof (register_rejects_invalid env r st) as Hrep.
    rewrite Hv in Hrep. eexists.
    split; [apply Hrep; discriminate|reflexivity].
Qed.


End AccountFacts.

(** C3, the claim as stated fails: a registration request with the email
    of a stored teacher and an empty name is answered with the list of
    validation errors, not with the duplicate error. *)
Lemma invalid_duplicate_gets_validation_errors :
  emailRegistered Sample.store "a@x.com"
  /\ b_email (body Sample.emptyNameTakenEmail) = Some "a@x.com"
  /\ serve (ext := Sample.collaborators) PostRegister Sample.env
           Sample.emptyNameTakenEmail Sample.store
     = (Sample.store,
        Some (mkResponse 400 (JErrors
          [ mkValidationError (Some "") "Name is required" "name" ]))).
Proof.
  split; [exact ValidationSamples.alice_registered|].
  split; vm_compute; reflexivity.
Qed.

Lemma duplicate_email_rejected_witness :
  serve (ext := Sample.collaborators) PostRegister Sample.env
        Sample.takenEmail Sample.store
  = (Sample.store, Some (mkResponse 400 (JMessage "Email already exists"))).
Proof.
  exact (proj1 (duplicate_email_rejected (ext := Sample.collaborators)
                  Sample.env Sample.takenEmail Sample.store "a@x.com"
                  eq_refl ValidationSamples.alice_registered)
               ltac:(vm_compute; reflexivity)).
Defined.


(* ===================================================================== *)
(** ** The entity repository: updates, deletes and listings *)
(* ===================================================================== *)

Section RepositoryFacts.
Context {ext : Collaborators}.

Lemma store_eta st : mkStore (teachers st) (classes st) (students st) = st.
Proof. destruct st; reflexivity. Qed.





(** A protected route whose gate lets the request through runs its
    handler with the verified payload attached. *)
Lemma serve_authenticated ep handler env r st :
  chain ep = [authenticateToken; handler] ->
  authenticated env r ->
  exists v, serve ep env r st = run [handler] env (mkCtx r [] (Some v)) st.
Proof.
  intros Hch (t & v & Hc & Hv). exists v. unfold serve. rewrite Hch.
  now apply (run_gate_accepts handler env r st t v).
Qed.

(** Whatever the gate decides, a route whose handler leaves the store
    alone leaves the store alone. *)
Lemma serve_gated_store ep handler env r st :
  chain ep = [authenticateToken; handler] ->
  (forall ctx, req ctx = r -> exists resp, handler env ctx st = Respond st resp) ->
  fst (serve ep env r st) = st.
Proof.
  intros Hch Hh. unfold serve. rewrite Hch. cbn [run].
  unfold authenticateToken.
  destruct (negb _); [reflexivity|].
  destruct (jwt_verify _ _ _) as [e|v]; [reflexivity|].
  destruct (Hh (mkCtx (req (initCtx r)) (errors (initCtx r)) (Some v)) eq_refl)
    as [resp ->].
  reflexivity.
Qed.


(** Reference resolution. *)
Lemma populate_dangling_class st id s cid :
  s_classId s = Some cid -> classes st !! cid = None ->
  ps_classId (Model.populateStudent st (id, s)) = None.
Proof. intros Hc Hm. simpl. rewrite Hc. simpl. now rewrite Hm. Qed.

Lemma populate_no_class st id s :
  s_classId s = None -> ps_classId (Model.populateStudent st (id, s)) = None.
Proof. intros Hc. simpl. now rewrite Hc. Qed.

Lemma populate_dangling_teacher st id c tid :
  c_teacherId c = Some tid -> teachers st !! tid = None ->
  pc_teacherId (Model.populateClass st (id, c)) = None.
Proof. intros Hc Hm. simpl. rewrite Hc. simpl. now rewrite Hm. Qed.

Lemma findStudents_complete st id s :
  students st !! id = Some s ->
  In (Model.populateStudent st (id, s)) (Model.findStudents st).
Proof.
  intros Hl. unfold Model.findStudents.
  apply list_elem_of_In, list_elem_of_fmap. exists (id, s).
  split; [reflexivity|]. now apply elem_of_map_to_list.
Qed.

Lemma findStudents_sound st p :
  In p (Model.findStudents st) ->
  exists id s, students st !! id = Some s /\ p = Model.populateStudent st (id, s).
Proof.
  unfold Model.findStudents.
  intros ([id s] & -> & Hin)%list_elem_of_In%list_elem_of_fmap.
  exists id, s. split; [|reflexivity]. now apply elem_of_map_to_list.
Qed.

Lemma findStudents_length st :
  length (Model.findStudents st) = size (students st).
Proof.
  unfold Model.findStudents. rewrite length_fmap.
  apply (length_map_to_list (students st)).
Qed.

Lemma getStudents_gated_store env r st : fst (serve GetStudents env r st) = st.
Proof.
  apply (serve_gated_store GetStudents getStudents); [reflexivity|].
  intros ctx _. eexists. reflexivity.
Qed.

(** C5.  The listing handler, and with it GET /public/students and GET
    /students once the gate has let the request through, answers 200 with
    one entry per stored student:
    every stored student is in the list under its identity and with its
    own fields, the list is exactly as long as the collection, and a
    student whose class reference matches no stored class is listed with
    a null class.  A class whose teacher reference matches no stored
    teacher is resolved with a null teacher.  The store comes back
    unchanged from every such request. *)
Theorem student_listing_complete env r st :
  (forall ctx,
     getStudents env ctx st = Respond st (send (JStudents (Model.findStudents st))))
  /\ serve GetPublicStudents env r st
     = (st, Some (send (JStudents (Model.findStudents st))))
  /\ (authenticated env r ->
      serve GetStudents env r st
      = (st, Some (send (JStudents (Model.findStudents st)))))
  /\ fst (serve GetStudents env r st) = st
  /\ length (Model.findStudents st) = size (students st)
  /\ (forall id s,
        students st !! id = Some s ->
        exists p,
          In p (Model.findStudents st)
          /\ ps_id p = id
          /\ ps_firstName p = s_firstName s /\ ps_lastName p = s_lastName s
          /\ ps_parentName p = s_parentName s
          /\ ps_address p = s_address s /\ ps_city p = s_city s
          /\ (s_classId s = None -> ps_classId p = None)
          /\ (forall cid, s_classId s = Some cid ->
                ps_classId p = (fun c => Model.populateClass st (cid, c))
                                 <$> classes st !! cid)
          /\ (forall cid, s_classId s = Some cid -> classes st !! cid = None ->
                ps_classId p = None))
  /\ (forall cid c tid,
        c_teacherId c = Some tid -> teachers st !! tid = None ->
        pc_teacherId (Model.populateClass st (cid, c)) = None).
Proof.
  split; [reflexivity|].
  split; [reflexivity|]. split; [|split; [|split; [|split]]].
  - intros Hauth.
    destruct (serve_authenticated GetStudents getStudents env r st eq_refl Hauth)
      as [v ->].
    reflexivity.
  - apply getStudents_gated_store.
  - apply findStudents_length.
  - intros id s Hl. exists (Model.populateStudent st (id, s)).
    split; [now apply findStudents_complete|].
    repeat (split; [reflexivity|]).
    split; [apply populate_no_class|].
    split.
    + intros cid Hc. simpl. rewrite Hc. simpl.
      destruct (classes st !! cid); reflexivity.
    + intros cid. apply populate_dangling_class.
  - intros cid c tid. apply populate_dangling_teacher.
Qed.

End RepositoryFacts.

Module RepositorySamples.

Lemma authorised_ok id :
  authenticated (ext := Sample.collaborators) Sample.env (Sample.authorised id).
Proof.
  exists Sample.token, (mkJwtPayload 1 1000 4600).
  split; [split; [vm_compute; reflexivity|discriminate]|vm_compute; reflexivity].
Qed.

End RepositorySamples.


Lemma student_listing_complete_witness :
  serve (ext := Sample.collaborators) GetStudents Sample.env
        (Sample.authorised 0) Sample.store
  = (Sample.store, Some (send (JStudents (Model.findStudents Sample.store))))
  /\ In (mkPopulatedStudent 4 (Some "Carol") (Some "C") None None None None)
        (Model.findStudents Sample.store).
Proof.
  split.
  - exact (proj1 (proj2 (proj2
             (student_listing_complete (ext := Sample.collaborators)
                Sample.env (Sample.authorised 0) Sample.store)))
           (RepositorySamples.authorised_ok 0)).
  - vm_compute. tauto.
Defined.

(* ===================================================================== *)
(** ** The token service *)
(* ===================================================================== *)

Module TokenFacts.
Section WithMac.
Variable hmac : string -> string -> string.

Import TokenService.

Lemma append_assoc (a b c : string) : (a +:+ b) +:+ c = a +:+ b +:+ c.
Proof.
  induction a as [|x a IH]; [reflexivity|].
  change (String x ((a +:+ b) +:+ c) = String x (a +:+ b +:+ c)).
  now rewrite IH.
Qed.

(** Decimal text holds digits only. *)
Lemma uint_free_of_comma d : Js.free_of "," (NilEmpty.string_of_uint d) = true.
Proof. induction d; simpl; auto. Qed.

Lemma uint_free_of_dot d : Js.free_of "." (NilEmpty.string_of_uint d) = true.
Proof. induction d; simpl; auto. Qed.

Lemma dec_free_of_comma n : Js.free_of "," (dec n) = true.
Proof. apply uint_free_of_comma. Qed.

Lemma dec_free_of_dot n : Js.free_of "." (dec n) = true.
Proof. apply uint_free_of_dot. Qed.

Lemma undec_dec n : undec (dec n) = Some n.
Proof.
  unfold undec, dec. rewrite NilEmpty.usu. simpl.
  now rewrite DecimalN.Unsigned.of_to.
Qed.

Lemma hexDigit_not_dot n : Ascii.eqb (hexDigit n) "." = false.
Proof.
  unfold hexDigit. generalize (N.to_nat n) as k. intros k.
  do 16 (destruct k as [|k]; [reflexivity|]). destruct k; reflexivity.
Qed.

Lemma armour_free_of_dot s : Js.free_of "." (armour s) = true.
Proof.
  induction s as [|c s IH]; simpl; [reflexivity|].
  now rewrite !hexDigit_not_dot, IH.
Qed.

Lemma payload_free_of_dot p : Js.free_of "." (encodePayload p) = true.
Proof.
  unfold encodePayload.
  rewrite !JsFacts.free_of_app, !dec_free_of_dot. reflexivity.
Qed.

(** The payload segment reads back as the payload. *)
Lemma decode_encode p : decodePayload (encodePayload p) = Some p.
Proof.
  unfold decodePayload, encodePayload.
  change ("," +:+ dec (jp_iat p) +:+ "," +:+ dec (jp_exp p))
    with (String "," (dec (jp_iat p) +:+ String "," (dec (jp_exp p)))).
  rewrite (JsFacts.split_app _ _ _ (dec_free_of_comma _)).
  rewrite (JsFacts.split_app _ _ _ (dec_free_of_comma _)).
  rewrite (JsFacts.split_free _ _ (dec_free_of_comma _)).
  rewrite !undec_dec. simpl. destruct p; reflexivity.
Qed.

(** A token splits into its three segments. *)
Lemma split_token k p :
  Js.split "." (tokenFor hmac k p)
  = [header; encodePayload p; signature hmac k (signingInput p)].
Proof.
  assert (Hshape : tokenFor hmac k p
                   = header +:+ String "." (encodePayload p
                       +:+ String "." (signature hmac k (signingInput p)))).
  { unfold tokenFor. unfold signingInput at 1. now rewrite append_assoc. }
  rewrite Hshape.
  rewrite (JsFacts.split_app "." header _ eq_refl).
  rewrite (JsFacts.split_app _ _ _ (payload_free_of_dot p)).
  unfold signature at 1.
  rewrite (JsFacts.split_free _ _ (armour_free_of_dot _)).
  reflexivity.
Qed.

(** Verifying a token under the secret it was signed with comes down to
    the comparison of the clock with its expiry instant. *)
Lemma verify_tokenFor k p now :
  verify hmac (tokenFor hmac k p) (Some k) now
  = if jp_exp p <=? now then inl TokenExpiredError else inr p.
Proof.
  unfold verify. rewrite split_token, decode_encode.
  rewrite String.eqb_refl. cbn [negb].
  fold (signingInput p). rewrite String.eqb_refl. reflexivity.
Qed.

End WithMac.
End TokenFacts.

Section LoginToken.
Context {ext : Collaborators}.

(** The token in a successful login response is the one [jwtToken.sign]
    returns for the teacher's [_id], the process secret and a lifetime
    of one hour, at the clock of the request. *)
Lemma login_signs_for_one_hour env ctx st st' usr tok msg :
  login env ctx st = Respond st' (send (JLogin usr tok msg)) ->
  jwt_sign usr.1 (JWT_SECRET env) 3600 (clock env) = Some tok.
Proof.
  unfold login, guard, invalidLogin, send.
  destruct (negb (bool_decide (errors ctx = []))); [discriminate|].
  destruct (Model.findOneByEmail _ _) as [teacher|]; [|discriminate].
  destruct (b_password _); [|discriminate].
  destruct (t_password _); [|discriminate].
  destruct (negb (bcrypt_compare _ _)); [discriminate|].
  change one_hour with 3600.
  destruct (jwt_sign _ _ _ _) eqn:Hs; [|discriminate].
  intros [= _ <- <- _]. exact Hs.
Qed.

End LoginToken.

(** C4.  The token issued for an identity at clock [now] with lifetime
    [ttl] carries the expiry instant [now + ttl]; under the secret it was
    signed with, it verifies to that identity at every instant strictly
    before the expiry instant and fails, as expired, at the expiry instant
    and at every later one.  The login handler asks for a lifetime of one
    hour (3600 seconds). *)
Theorem token_valid_until_expiry
  (hmac : string -> string -> string) (id : ObjectId) (k : string) (ttl now : N) :
  exists tok,
    TokenService.issue hmac id (Some k) ttl now = Some tok
    /\ (forall t, t < now + ttl ->
          TokenService.verify hmac tok (Some k) t
          = inr (mkJwtPayload id now (now + ttl)))
    /\ (forall t, now + ttl <= t ->
          TokenService.verify hmac tok (Some k) t = inl TokenExpiredError)
    /\ one_hour = 3600
    /\ (forall (ext : Collaborators) env ctx st st' usr tok' msg,
          login env ctx st = Respond st' (send (JLogin usr tok' msg)) ->
          jwt_sign usr.1 (JWT_SECRET env) one_hour (clock env) = Some tok').
Proof.
  eexists. split; [reflexivity|].
  split; [|split; [|split; [reflexivity|]]].
  - intros t Ht. rewrite TokenFacts.verify_tokenFor. cbn [jp_exp].
    destruct (N.leb_spec (now + ttl) t); [lia|reflexivity].
  - intros t Ht. rewrite TokenFacts.verify_tokenFor. cbn [jp_exp].
    destruct (N.leb_spec (now + ttl) t); [reflexivity|lia].
  - intros ext env ctx st st' usr tok' msg. apply login_signs_for_one_hour.
Qed.

Lemma token_valid_until_expiry_witness :
  exists tok,
    TokenService.issue Sample.hmac 1 (Some "s3cret") 3600 1000 = Some tok
    /\ TokenService.verify Sample.hmac tok (Some "s3cret") 4599
       = inr (mkJwtPayload 1 1000 4600)
    /\ TokenService.verify Sample.hmac tok (Some "s3cret") 4600
       = inl TokenExpiredError.
Proof.
  destruct (token_valid_until_expiry Sample.hmac 1 "s3cret" 3600 1000)
    as (tok & Hissue & Hbefore & Hafter & _).
  exists tok. split; [exact Hissue|]. split.
  - apply Hbefore. reflexivity.
  - apply Hafter. discriminate.
Defined.

(* ===================================================================== *)
(** ** Further properties of the handlers *)
(* ===================================================================== *)

Section MoreAccountFacts.
Context {ext : Collaborators}.



(** A valid login with a registered email and a password that
    [bcrypt.compare] accepts for the stored hash answers 200 with the
    teacher and the token [jwtToken.sign] returns for the teacher's [_id],
    the process secret and one hour; the store is unchanged. *)
Theorem login_succeeds env r st tok :
  passesValidation teacherLoginValidator (body r) ->
  forall d,
    Model.findOneByEmail (b_email (body r)) (teachers st) = Some d ->
    (exists hash, t_password d.2 = Some hash
                  /\ bcrypt_compare (toString (b_password (body r))) hash = true) ->
    jwt_sign d.1 (JWT_SECRET env) 3600 (clock env) = Some tok ->
    serve PostLogin env r st = (st, Some (send (JLogin d tok "Login successful"))).
Proof.
  intros Hp d Hd (hash & Hh & Hc) Hs.
  rewrite login_route. cbn [run]. unfold login. cbn [errors req].
  rewrite (proj2 (violations_nil _ _) Hp).
  rewrite bool_decide_eq_true_2 by reflexivity. cbn [negb].
  destruct (login_body_valid _ Hp) as (e & p & He & _ & Hpw & _).
  rewrite Hd, Hpw, Hh. rewrite Hpw in Hc. simpl in Hc. rewrite Hc. cbn [negb].
  change one_hour with 3600. rewrite Hs. reflexivity.
Qed.

End MoreAccountFacts.

Section MoreRepositoryFacts.
Context {ext : Collaborators}.

(** Deleting a class touches neither the students nor the teachers: a
    student that referred to the class is still stored, unmodified, and
    the next listing shows it with a null class. *)
Theorem delete_class_keeps_students env ctx st :
  let st' := mkStore (teachers st)
                     (delete (params_id (req ctx)) (classes st))
                     (students st) in
  deleteClass env ctx st
  = Respond st' (send (JMessage "Class deleted successfully"))
  /\ students st' = students st
  /\ teachers st' = teachers st
  /\ (forall id s,
        students st !! id = Some s ->
        s_classId s = Some (params_id (req ctx)) ->
        In (Model.populateStudent st' (id, s)) (Model.findStudents st')
        /\ ps_classId (Model.populateStudent st' (id, s)) = None).
Proof.
  intros st'. split; [reflexivity|]. split; [reflexivity|]. split; [reflexivity|].
  intros id s Hl Hc. split.
  - now apply findStudents_complete.
  - apply (populate_dangling_class st' id s _ Hc). apply lookup_delete_eq.
Qed.

(** POST /class stores a class whose required paths are present under a
    fresh [_id] without looking its teacher reference up; when no teacher
    has that identity, the class listing shows it with a null teacher. *)
Theorem class_with_dangling_teacher env ctx st :
  Js.truthy (b_standard (body (req ctx))) = true ->
  Js.truthy (b_section (body (req ctx))) = true ->
  classes st !! nextId env = None ->
  let newClass :=
    {| c_standard := b_standard (body (req ctx));
       c_section := b_section (body (req ctx));
       c_status := "ACTIVE";
       c_teacherId := b_teacherId (body (req ctx)) |} in
  let st' := mkStore (teachers st) (<[nextId env := newClass]> (classes st))
                     (students st) in
  postClass env ctx st
  = Respond st' (send (JClass (Some (nextId env, newClass)) "Class added successfully"))
  /\ In (Model.populateClass st' (nextId env, newClass)) (Model.findClasses st')
  /\ (forall tid, b_teacherId (body (req ctx)) = Some tid ->
        teachers st !! tid = None ->
        pc_teacherId (Model.populateClass st' (nextId env, newClass)) = None).
Proof.
  intros Hstd Hsec Hfresh newClass st'. split; [|split].
  - unfold postClass, Model.saveClass, Model.required. cbn [c_standard c_section].
    rewrite Hstd, Hsec, Hfresh. reflexivity.
  - unfold Model.findClasses. apply list_elem_of_In, list_elem_of_fmap.
    exists (nextId env, newClass). split; [reflexivity|].
    apply elem_of_map_to_list. apply lookup_insert_eq.
  - intros tid Ht Hm. now apply (populate_dangling_teacher st' _ newClass tid).
Qed.

End MoreRepositoryFacts.

(* ===================================================================== *)
(** ** From login to the gate *)
(* ===================================================================== *)

Module TokenTransport.
Section WithMac.
Variable hmac : string -> string -> string.

Import TokenService.

Lemma uint_free_of_space d : Js.free_of " " (NilEmpty.string_of_uint d) = true.
Proof. induction d; simpl; auto. Qed.

Lemma hexDigit_not_space n : Ascii.eqb (hexDigit n) " " = false.
Proof.
  unfold hexDigit. generalize (N.to_nat n) as k. intros k.
  do 16 (destruct k as [|k]; [reflexivity|]). destruct k; reflexivity.
Qed.

Lemma armour_free_of_space s : Js.free_of " " (armour s) = true.
Proof.
  induction s as [|c s IH]; simpl; [reflexivity|].
  now rewrite !hexDigit_not_space, IH.
Qed.

(** A token is one word: it survives the header's split on spaces. *)
Lemma token_free_of_space k p : Js.free_of " " (tokenFor hmac k p) = true.
Proof.
  unfold tokenFor, signingInput, encodePayload, signature, dec.
  rewrite !JsFacts.free_of_app, !uint_free_of_space, armour_free_of_space.
  reflexivity.
Qed.

Lemma token_nonempty k p : String.eqb (tokenFor hmac k p) "" = false.
Proof. reflexivity. Qed.

(** With the token service for jsonwebtoken: the token of a successful
    login, sent back as [Authorization: Bearer <token>] while the process
    secret is the same, passes the gate with the teacher's identity
    attached at every clock value before the login's clock plus one hour,
    and is answered 400 from then on. *)
Theorem login_token_passes_gate (ext : Collaborators) env ctx st st' usr tok msg
        env' r st'' :
  login (ext := withTokenService hmac ext) env ctx st
  = Respond st' (send (JLogin usr tok msg)) ->
  JWT_SECRET env' = JWT_SECRET env ->
  authorization r = Some ("Bearer " +:+ tok) ->
  authenticateToken (ext := withTokenService hmac ext) env' (initCtx r) st''
  = if clock env + 3600 <=? clock env'
    then Respond st'' badToken
    else Next (mkCtx r [] (Some (mkJwtPayload usr.1 (clock env) (clock env + 3600))))
              st''.
Proof.
  intros Hlogin Hsecret Hauth.
  apply (login_signs_for_one_hour (ext := withTokenService hmac ext)) in Hlogin.
  cbn [jwt_sign withTokenService] in Hlogin. unfold issue in Hlogin.
  destruct (JWT_SECRET env) as [k|] eqn:Hk; [|discriminate].
  injection Hlogin as <-.
  unfold authenticateToken. cbn [req initCtx errors].
  rewrite Hauth.
  change ("Bearer " +:+ tokenFor hmac k ?p) with ("Bearer" +:+ " " +:+ tokenFor hmac k p).
  rewrite (tokenOf_second_word "Bearer" _ eq_refl (token_free_of_space _ _)).
  cbn [Js.truthy]. rewrite token_nonempty. cbn [negb toString default].
  cbn [jwt_verify withTokenService]. unfold id. rewrite Hsecret.
  rewrite TokenFacts.verify_tokenFor. cbn [jp_exp].
  destruct (clock env + 3600 <=? clock env'); reflexivity.
Qed.

End WithMac.
End TokenTransport.

Module MoreSamples.

Lemma alice_found :
  Model.findOneByEmail (b_email (body Sample.validLogin)) (teachers Sample.store)
  = Some (1, Sample.alice).
Proof. vm_compute. reflexivity. Qed.


End MoreSamples.


Lemma login_succeeds_witness :
  serve (ext := Sample.collaborators) PostLogin Sample.env Sample.validLogin Sample.store
  = (Sample.store,
     Some (send (JLogin (1, Sample.alice) Sample.token "Login successful"))).
Proof.
  exact (login_succeeds (ext := Sample.collaborators) Sample.env Sample.validLogin
           Sample.store Sample.token ltac:(vm_compute; reflexivity)
           (1, Sample.alice) MoreSamples.alice_found
           ltac:(eexists; split; vm_compute; reflexivity)
           ltac:(vm_compute; reflexivity)).
Defined.

Lemma class_with_dangling_teacher_witness :
  exists st' c,
    postClass Sample.env
              (initCtx Sample.newClassRequest) Sample.store
    = Respond st' (send (JClass (Some (7, c)) "Class added successfully"))
    /\ pc_teacherId (Model.populateClass st' (7, c)) = None.
Proof.
  destruct (class_with_dangling_teacher Sample.env
              (initCtx Sample.newClassRequest) Sample.store
              eq_refl eq_refl ltac:(vm_compute; reflexivity))
    as (Hpost & _ & Hnull).
  eexists _, _. split; [exact Hpost|].
  apply (Hnull 42); vm_compute; reflexivity.
Defined.

Lemma login_token_passes_gate_witness :
  authenticateToken (ext := withTokenService Sample.hmac Sample.collaborators)
    Sample.env (initCtx (Sample.authorised 0)) Sample.store
  = Next (mkCtx (Sample.authorised 0) [] (Some (mkJwtPayload 1 1000 4600)))
         Sample.store.
Proof.
  exact (TokenTransport.login_token_passes_gate Sample.hmac Sample.collaborators
           Sample.env (initCtx Sample.validLogin) Sample.store Sample.store
           (1, Sample.alice) Sample.token "Login successful"
           Sample.env (Sample.authorised 0) Sample.store
           ltac:(vm_compute; reflexivity) eq_refl eq_refl).
Defined.

(* ===================================================================== *)
(** ** Every route, case by case *)
(* ===================================================================== *)

Section RouteFacts.
Context {ext : Collaborators}.

(** A route ends at the gate, with one of its two rejections, or it runs
    its handler on the request. *)
Lemma serve_cases ep env r st :
  (protected ep = true /\ serve ep env r st = (st, Some unauthenticated))
  \/ (protected ep = true /\ serve ep env r st = (st, Some badToken))
  \/ (exists ctx, req ctx = r
                  /\ serve ep env r st = run [handlerOf ep] env ctx st).
Proof.
  destruct ep;
    try (right; right; eexists; split; [|first [apply register_route|apply login_route]];
         reflexivity);
    try (right; right; exists (initCtx r); split; reflexivity);
    unfold serve; cbn [chain run]; unfold authenticateToken;
    (destruct (negb _); [left; split; reflexivity|]);
    (destruct (jwt_verify _ _ _) as [e|v]; [right; left; split; reflexivity|]);
    right; right; eexists; (split; [|reflexivity]); reflexivity.
Qed.

(** What a handler does to the store and which statuses it answers with. *)
Lemma handler_effect ep env ctx st :
  exists st' resp,
    handlerOf ep env ctx st = Respond st' resp
    /\ (status resp = 200 \/ status resp = 400 \/ status resp = 500)
    /\ (status resp <> 200 -> st' = st)
    /\ (writesTeachers ep = false -> teachers st' = teachers st)
    /\ (writesClasses ep = false -> classes st' = classes st)
    /\ (writesStudents ep = false -> students st' = students st)
    /\ (teachers st ⊆ teachers st').
Proof.
  destruct ep; cbn [handlerOf writesTeachers writesClasses writesStudents];
    unfold register, login, postClass, putClass, deleteClass, getClasses,
           postStudent, putStudent, deleteStudent, getStudents, guard,
           invalidLogin, send, Model.saveTeacher, Model.saveClass,
           Model.saveStudent, Model.findByIdAndUpdate, Model.findByIdAndDelete;
    repeat case_match; simplify_eq;
    eexists _, _; (split; [reflexivity|]); cbn [status teachers classes students];
    repeat split; try (intros; congruence); try reflexivity; auto;
    try (intros; exfalso; lia);
    try (now apply insert_subseteq).
Qed.

End RouteFacts.

Section RouteProperties.
Context {ext : Collaborators}.

(** The effect of a whole route, gate and validators included. *)
Lemma serve_effect ep env r st :
  exists st' resp,
    serve ep env r st = (st', Some resp)
    /\ (status resp = 200 \/ status resp = 400
        \/ (status resp = 401 /\ protected ep = true) \/ status resp = 500)
    /\ (status resp <> 200 -> st' = st)
    /\ (writesTeachers ep = false -> teachers st' = teachers st)
    /\ (writesClasses ep = false -> classes st' = classes st)
    /\ (writesStudents ep = false -> students st' = students st)
    /\ (teachers st ⊆ teachers st').
Proof.
  destruct (serve_cases ep env r st) as [[Hp ->]|[[Hp ->]|(ctx & _ & ->)]].
  - exists st, unauthenticated. repeat split; auto.
  - exists st, badToken. repeat split; auto.
  - destruct (handler_effect ep env ctx st)
      as (st' & resp & Hh & Hstatus & Hfail & Ht & Hc & Hs & Hsub).
    exists st', resp. cbn [run]. rewrite Hh.
    repeat split; try assumption.
    destruct Hstatus as [?|[?|?]]; auto.
Qed.

(** Every request to every endpoint is answered, with status 200, 400,
    401 or 500; 401 comes from protected endpoints only; and a request
    answered with anything but 200 leaves the store exactly as it was. *)
Theorem rejected_requests_write_nothing ep env r st :
  exists resp,
    snd (serve ep env r st) = Some resp
    /\ (status resp = 200 \/ status resp = 400
        \/ status resp = 401 \/ status resp = 500)
    /\ (status resp = 401 -> protected ep = true)
    /\ (status resp <> 200 -> fst (serve ep env r st) = st).
Proof.
  destruct (serve_effect ep env r st)
    as (st' & resp & -> & Hstatus & Hfail & _).
  exists resp. split; [reflexivity|]. split; [|split].
  - destruct Hstatus as [?|[?|[[? _]|?]]]; auto.
  - intros H401. destruct Hstatus as [H|[H|[[_ Hp]|H]]];
      first [exact Hp | rewrite H in H401; discriminate].
  - exact Hfail.
Qed.

(** Each endpoint changes at most the collection of its own entity:
    teachers only through registration, classes only through the three
    class writes, students only through the three student writes; login
    and the listings change nothing.  No endpoint removes or alters a
    stored teacher. *)
Theorem endpoint_footprint ep env r st :
  (writesTeachers ep = false ->
     teachers (fst (serve ep env r st)) = teachers st)
  /\ (writesClasses ep = false ->
        classes (fst (serve ep env r st)) = classes st)
  /\ (writesStudents ep = false ->
        students (fst (serve ep env r st)) = students st)
  /\ (writesTeachers ep || writesClasses ep || writesStudents ep = false ->
        fst (serve ep env r st) = st)
  /\ (forall id t, teachers st !! id = Some t ->
        teachers (fst (serve ep env r st)) !! id = Some t).
Proof.
  destruct (serve_effect ep env r st)
    as (st' & resp & -> & _ & _ & Ht & Hc & Hs & Hsub).
  cbn [fst]. repeat split; try assumption.
  - intros [[Hwt Hwc]%orb_false_elim Hws]%orb_false_elim.
    specialize (Ht Hwt). specialize (Hc Hwc). specialize (Hs Hws).
    destruct st, st'. simpl in *. congruence.
  - intros id t Hl. eapply lookup_weaken; eassumption.
Qed.

End RouteProperties.

(* ===================================================================== *)
(** ** Registration and login, composed *)
(* ===================================================================== *)

Section AccountLifecycle.
Context {ext : Collaborators}.

Lemma emailIndexed_false ts e id t :
  Model.emailIndexed e ts = false -> ts !! id = Some t -> t_email t <> e.
Proof.
  unfold Model.emailIndexed. intros Hidx%bool_decide_eq_false Hl He.
  apply Hidx, Exists_exists. exists (id, t).
  split; [|exact He]. now apply list_elem_of_In, elem_of_map_to_list.
Qed.

(** The teacher document registration builds from a body. *)
Lemma register_success_inv env ctx st st' resp :
  register env ctx st = Respond st' resp ->
  status resp = 200 ->
  exists p,
    let t := {| t_name := trimmed (b_name (body (req ctx)));
                t_email := trimmed (b_email (body (req ctx)));
                t_password := Some (Js.trim (bcrypt_hash p 10 (entropy env)));
                t_address := trimmed (b_address (body (req ctx)));
                t_status := "ACTIVE" |} in
    errors ctx = []
    /\ b_password (body (req ctx)) = Some p
    /\ Model.findOneByEmail (b_email (body (req ctx))) (teachers st) = None
    /\ teachers st !! nextId env = None
    /\ Model.emailIndexed (t_email t) (teachers st) = false
    /\ st' = mkStore (<[nextId env := t]> (teachers st)) (classes st) (students st)
    /\ resp = send (JUser (nextId env, t) "Registration is done successfully").
Proof.
  unfold register, guard, Model.saveTeacher, send.
  destruct (bool_decide (errors ctx = [])) eqn:Herr; cbn [negb];
    [|intros [= <- <-]; discriminate].
  apply bool_decide_eq_true in Herr.
  destruct (Model.findOneByEmail _ _); [intros [= <- <-]; discriminate|].
  destruct (b_password _) as [p|]; [|intros [= <- <-]; discriminate].
  destruct (teachers st !! nextId env); [intros [= <- <-]; discriminate|].
  destruct (Model.emailIndexed _ _) eqn:Hidx; [intros [= <- <-]; discriminate|].
  intros [= <- <-] _. exists p. cbn zeta. repeat split; auto.
Qed.

Lemma serve_register_inv env r st st' resp :
  serve PostRegister env r st = (st', Some resp) ->
  status resp = 200 ->
  passesValidation teacherRegistrationValidator (body r)
  /\ exists p,
       let t := {| t_name := trimmed (b_name (body r));
                   t_email := trimmed (b_email (body r));
                   t_password := Some (Js.trim (bcrypt_hash p 10 (entropy env)));
                   t_address := trimmed (b_address (body r));
                   t_status := "ACTIVE" |} in
       b_password (body r) = Some p
       /\ Model.findOneByEmail (b_email (body r)) (teachers st) = None
       /\ teachers st !! nextId env = None
       /\ Model.emailIndexed (t_email t) (teachers st) = false
       /\ st' = mkStore (<[nextId env := t]> (teachers st)) (classes st) (students st).
Proof.
  rewrite register_route. cbn [run]. intros Hrun Hok.
  destruct (register env _ st) as [|st2 resp2] eqn:Hreg; [discriminate|].
  injection Hrun as <- <-.
  destruct (register_success_inv _ _ _ _ _ Hreg Hok)
    as (p & Herr & Hp & Hfind & Hfresh & Hidx & Hst & _).
  cbn [errors req] in *. split.
  - now apply violations_nil.
  - exists p. cbn zeta. repeat split; assumption.
Qed.

(** Registration keeps the emails of stored teachers pairwise distinct;
    no other endpoint writes teachers.  So on every endpoint, for every
    request, a store without two teachers of one email stays so. *)
Theorem email_uniqueness_is_invariant ep env r st :
  uniqueEmails st -> uniqueEmails (fst (serve ep env r st)).
Proof.
  intros Huniq.
  destruct (serve_effect ep env r st)
    as (st' & resp & Hserve & _ & Hfail & Ht & _).
  rewrite Hserve. cbn [fst].
  destruct ep; try (unfold uniqueEmails; rewrite (Ht eq_refl); exact Huniq).
  destruct (decide (status resp = 200)) as [Hok|Hno];
    [|now rewrite (Hfail Hno)].
  destruct (serve_register_inv _ _ _ _ _ Hserve Hok)
    as (_ & p & _ & _ & Hfresh & Hidx & ->).
  intros id1 id2 t1 t2. cbn [teachers].
  rewrite !lookup_insert_Some.
  intros [[<- <-]|[Hne1 Hl1]] [[<- <-]|[Hne2 Hl2]] He; try reflexivity.
  - exfalso. symmetry in He. exact (emailIndexed_false _ _ _ _ Hidx Hl2 He).
  - exfalso. exact (emailIndexed_false _ _ _ _ Hidx Hl1 He).
  - exact (Huniq _ _ _ _ Hl1 Hl2 He).
Qed.

Lemma register_rejects_duplicate env r st e :
  passesValidation teacherRegistrationValidator (body r) ->
  b_email (body r) = Some e ->
  emailRegistered st e ->
  serve PostRegister env r st
  = (st, Some (mkResponse 400 (JMessage "Email already exists"))).
Proof.
  intros Hp He Hreg. rewrite register_route. cbn [run]. unfold register.
  cbn [errors req]. rewrite (proj2 (violations_nil _ _) Hp).
  rewrite bool_decide_eq_true_2 by reflexivity. cbn [negb].
  rewrite He. destruct (findOneByEmail_registered st e Hreg) as [d ->].
  reflexivity.
Qed.

(** Once a registration has succeeded, a later registration with the same
    email (up to surrounding white space) that passes validation is
    answered 400 "Email already exists" and writes nothing, whatever its
    other fields are. *)
Theorem second_registration_is_rejected env1 env2 r1 r2 st st1 resp e1 e2 :
  serve PostRegister env1 r1 st = (st1, Some resp) ->
  status resp = 200 ->
  b_email (body r1) = Some e1 ->
  b_email (body r2) = Some e2 ->
  Js.trim e2 = Js.trim e1 ->
  passesValidation teacherRegistrationValidator (body r2) ->
  serve PostRegister env2 r2 st1
  = (st1, Some (mkResponse 400 (JMessage "Email already exists"))).
Proof.
  intros Hserve Hok He1 He2 Htrim Hp2.
  destruct (serve_register_inv _ _ _ _ _ Hserve Hok)
    as (_ & p & _ & _ & _ & _ & ->).
  apply (register_rejects_duplicate env2 r2 _ e2 Hp2 He2).
  eexists (nextId env1), _. cbn [teachers]. split; [apply lookup_insert_eq|].
  cbn [t_email]. rewrite He1, Htrim. reflexivity.
Qed.

(** The login checks are among the registration checks. *)
Lemma registration_valid_login_valid b1 b2 :
  passesValidation teacherRegistrationValidator b1 ->
  b_email b2 = b_email b1 ->
  b_password b2 = b_password b1 ->
  passesValidation teacherLoginValidator b2.
Proof.
  intros Hp He Hpw.
  pose proof (passes_each _ (mkCheck "email" b_email "Email is required" notEmpty)
                b1 Hp ltac:(simpl; tauto)) as H1.
  pose proof (passes_each _ (mkCheck "email" b_email "Email is invalid" isEmail)
                b1 Hp ltac:(simpl; tauto)) as H2.
  pose proof (passes_each _ (mkCheck "password" b_password "Password is required" notEmpty)
                b1 Hp ltac:(simpl; tauto)) as H3.
  unfold passesValidation, violated, teacherLoginValidator, violates in *.
  cbn [List.filter ck_passes ck_read] in *.
  now rewrite He, Hpw, H1, H2, H3.
Qed.

Lemma login_accepts env r st d hash tok :
  passesValidation teacherLoginValidator (body r) ->
  Model.findOneByEmail (b_email (body r)) (teachers st) = Some d ->
  t_password d.2 = Some hash ->
  bcrypt_compare (toString (b_password (body r))) hash = true ->
  jwt_sign d.1 (JWT_SECRET env) 3600 (clock env) = Some tok ->
  serve PostLogin env r st = (st, Some (send (JLogin d tok "Login successful"))).
Proof.
  intros Hp Hd Hh Hc Hs.
  rewrite login_route. cbn [run]. unfold login. cbn [errors req].
  rewrite (proj2 (violations_nil _ _) Hp).
  rewrite bool_decide_eq_true_2 by reflexivity. cbn [negb].
  destruct (login_body_valid _ Hp) as (e & p & He & _ & Hpw & _).
  rewrite Hd, Hpw, Hh. rewrite Hpw in Hc. simpl in Hc. rewrite Hc. cbn [negb].
  change one_hour with 3600. rewrite Hs. reflexivity.
Qed.

(** A teacher who has just registered can log in: after a successful
    registration, a login with the same email and password finds that
    teacher and no other, and -- provided [bcrypt.compare] accepts the
    password for the hash [bcrypt.hash] made of it, and [jwtToken.sign]
    returns a token -- answers 200 with the new teacher and that token. *)
Theorem registered_teacher_can_log_in env1 env2 r1 r2 st st1 resp e p tok :
  serve PostRegister env1 r1 st = (st1, Some resp) ->
  status resp = 200 ->
  b_email (body r1) = Some e ->
  b_password (body r1) = Some p ->
  b_email (body r2) = Some e ->
  b_password (body r2) = Some p ->
  bcrypt_compare p (Js.trim (bcrypt_hash p 10 (entropy env1))) = true ->
  jwt_sign (nextId env1) (JWT_SECRET env2) 3600 (clock env2) = Some tok ->
  exists t,
    teachers st1 !! nextId env1 = Some t
    /\ t_email t = Some (Js.trim e)
    /\ serve PostLogin env2 r2 st1
       = (st1, Some (send (JLogin (nextId env1, t) tok "Login successful"))).
Proof.
  intros Hserve Hok He1 Hp1 He2 Hp2 Hcmp Hsign.
  destruct (serve_register_inv _ _ _ _ _ Hserve Hok)
    as (Hvalid & p' & Hp' & Hnone & Hfresh & Hidx & ->).
  rewrite Hp1 in Hp'. injection Hp' as <-.
  match goal with |- context [<[_ := ?t]> _] => set (newTeacher := t) in * end.
  assert (Hmail : t_email newTeacher = Some (Js.trim e))
    by (subst newTeacher; cbn [t_email]; now rewrite He1).
  exists newTeacher. cbn [teachers]. split; [apply lookup_insert_eq|].
  split; [exact Hmail|].
  assert (Hreg : emailRegistered
            (mkStore (<[nextId env1 := newTeacher]> (teachers st))
                     (classes st) (students st)) e).
  { exists (nextId env1), newTeacher. cbn [teachers].
    split; [apply lookup_insert_eq|exact Hmail]. }
  destruct (findOneByEmail_registered _ e Hreg) as [d Hd].
  pose proof (findOneByEmail_found _ _ _ Hd) as [Hl Hemail].
  cbn [teachers] in Hl, Hd.
  apply lookup_insert_Some in Hl as [[Hid Ht]|[Hne Hl]].
  - apply (login_accepts env2 r2 _ _ (Js.trim (bcrypt_hash p 10 (entropy env1)))).
    + apply (registration_valid_login_valid (body r1)); [exact Hvalid|congruence..].
    + cbn [teachers]. rewrite He2, Hd. destruct d as [id t]. simpl in *. congruence.
    + reflexivity.
    + rewrite Hp2. exact Hcmp.
    + exact Hsign.
  - exfalso. rewrite He1 in Hnone.
    assert (Hold : emailRegistered st e) by (exists d.1, d.2; now split).
    destruct (findOneByEmail_registered st e Hold) as [d' Hd'].
    rewrite Hd' in Hnone. discriminate.
Qed.

End AccountLifecycle.

(* ===================================================================== *)
(** ** Classes and students: create, update, delete, list *)
(* ===================================================================== *)

Section EntityLifecycle.
Context {ext : Collaborators}.

Lemma findClasses_complete st id c :
  classes st !! id = Some c ->
  In (Model.populateClass st (id, c)) (Model.findClasses st).
Proof.
  intros Hl. unfold Model.findClasses.
  apply list_elem_of_In, list_elem_of_fmap. exists (id, c).
  split; [reflexivity|]. now apply elem_of_map_to_list.
Qed.

Lemma findClasses_sound st p :
  In p (Model.findClasses st) ->
  exists c, classes st !! pc_id p = Some c /\ p = Model.populateClass st (pc_id p, c).
Proof.
  unfold Model.findClasses.
  intros ([id c] & -> & Hin)%list_elem_of_In%list_elem_of_fmap.
  exists c. split; [|reflexivity]. now apply elem_of_map_to_list.
Qed.

Lemma findClasses_length st :
  length (Model.findClasses st) = size (classes st).
Proof.
  unfold Model.findClasses. rewrite length_fmap.
  apply (length_map_to_list (classes st)).
Qed.

(** Resolution reads the referenced collections only. *)
Lemma populateClass_ext st st' d :
  teachers st' = teachers st ->
  Model.populateClass st' d = Model.populateClass st d.
Proof. intros Ht. unfold Model.populateClass. now rewrite Ht. Qed.

Lemma populateStudent_ext st st' d :
  teachers st' = teachers st -> classes st' = classes st ->
  Model.populateStudent st' d = Model.populateStudent st d.
Proof.
  intros Ht Hc. unfold Model.populateStudent. rewrite Hc.
  destruct (s_classId d.2) as [cid|]; [|reflexivity]. simpl.
  destruct (classes st !! cid); [|reflexivity]. simpl.
  now rewrite (populateClass_ext st st' _ Ht).
Qed.

(** GET /classes, once the gate has let the request through, answers 200
    with exactly one entry per stored class and nothing else: each class
    under its identity with its own fields, its teacher reference replaced
    by the stored teacher of that identity, or by null when the class has
    no reference or no teacher has the identity.  The store is returned
    unchanged. *)
Theorem class_listing_complete env r st :
  (authenticated env r ->
     serve GetClasses env r st
     = (st, Some (send (JClasses (Model.findClasses st)))))
  /\ length (Model.findClasses st) = size (classes st)
  /\ (forall id c,
        classes st !! id = Some c ->
        exists p,
          In p (Model.findClasses st)
          /\ pc_id p = id /\ pc_standard p = c_standard c
          /\ pc_section p = c_section c /\ pc_status p = c_status c
          /\ (c_teacherId c = None -> pc_teacherId p = None)
          /\ (forall tid, c_teacherId c = Some tid ->
                pc_teacherId p = (fun t => (tid, t)) <$> teachers st !! tid))
  /\ (forall p, In p (Model.findClasses st) ->
        exists c, classes st !! pc_id p = Some c
                  /\ pc_standard p = c_standard c /\ pc_section p = c_section c).
Proof.
  split; [|split; [|split]].
  - intros Hauth.
    destruct (serve_authenticated GetClasses getClasses env r st eq_refl Hauth)
      as [v ->].
    reflexivity.
  - apply findClasses_length.
  - intros id c Hl. exists (Model.populateClass st (id, c)).
    split; [now apply findClasses_complete|].
    repeat (split; [reflexivity|]). split.
    + intros Hnone. simpl. now rewrite Hnone.
    + intros tid Ht. simpl. rewrite Ht. simpl.
      destruct (teachers st !! tid); reflexivity.
  - intros p Hin. destruct (findClasses_sound st p Hin) as (c & Hl & Hp).
    exists c. split; [exact Hl|]. rewrite Hp. split; reflexivity.
Qed.




(** DELETE on a class or a student removes the document of that identity
    and no other: afterwards the identity is not stored, every other
    document of the collection is as before, the collection is one
    smaller when the identity was stored, and a second delete of the same
    identity changes nothing and still answers with the success message. *)
Theorem delete_removes_one_document env ctx st :
  let id := params_id (req ctx) in
  let stc := mkStore (teachers st) (delete id (classes st)) (students st) in
  let sts := mkStore (teachers st) (classes st) (delete id (students st)) in
  (deleteClass env ctx st
   = Respond stc (send (JMessage "Class deleted successfully"))
   /\ classes stc !! id = None
   /\ (forall id', id' <> id -> classes stc !! id' = classes st !! id')
   /\ (is_Some (classes st !! id) -> S (size (classes stc)) = size (classes st))
   /\ deleteClass env ctx stc
      = Respond stc (send (JMessage "Class deleted successfully")))
  /\ (deleteStudent env ctx st
      = Respond sts (send (JMessage "Student deleted successfully"))
      /\ students sts !! id = None
      /\ (forall id', id' <> id -> students sts !! id' = students st !! id')
      /\ (is_Some (students st !! id) -> S (size (students sts)) = size (students st))
      /\ deleteStudent env ctx sts
         = Respond sts (send (JMessage "Student deleted successfully"))
      /\ (forall p, In p (Model.findStudents sts) ->
            In p (Model.findStudents st) /\ ps_id p <> id)).
Proof.
  cbv zeta. split.
  - split; [reflexivity|]. split; [apply lookup_delete_eq|].
    split; [intros id' Hne; cbn [classes]; now rewrite lookup_delete_ne|].
    split.
    + intros [c Hc]. cbn [classes]. rewrite map_size_delete, Hc.
      assert (size (classes st) <> 0%nat); [|lia].
      intros Hz%map_size_empty_inv. rewrite Hz in Hc. now rewrite lookup_empty in Hc.
    + unfold deleteClass, Model.findByIdAndDelete. cbv zeta. cbn [classes req].
      now rewrite delete_delete_eq.
  - split; [reflexivity|]. split; [apply lookup_delete_eq|].
    split; [intros id' Hne; cbn [students]; now rewrite lookup_delete_ne|].
    split; [|split].
    + intros [s Hs]. cbn [students]. rewrite map_size_delete, Hs.
      assert (size (students st) <> 0%nat); [|lia].
      intros Hz%map_size_empty_inv. rewrite Hz in Hs. now rewrite lookup_empty in Hs.
    + unfold deleteStudent, Model.findByIdAndDelete. cbv zeta. cbn [students req].
      now rewrite delete_delete_eq.
    + intros p Hin. destruct (findStudents_sound _ p Hin) as (id' & s & Hl & ->).
      cbn [students] in Hl. apply lookup_delete_Some in Hl as [Hne Hl].
      split; [|cbn [Model.populateStudent ps_id]; simpl; congruence].
      rewrite (populateStudent_ext st) by reflexivity.
      now apply findStudents_complete.
Qed.

End EntityLifecycle.

Section EntityCreation.
Context {ext : Collaborators}.


(** POST /class fails Mongoose's validation when [standard] or [section]
    is absent or empty: the answer is 500 with the validation error and
    nothing is stored. *)
Theorem class_needs_standard_and_section env ctx st :
  Js.truthy (b_standard (body (req ctx))) = false
  \/ Js.truthy (b_section (body (req ctx))) = false ->
  exists path,
    postClass env ctx st
    = Respond st (mkResponse 500 (JError (ValidationFailed path))).
Proof.
  intros Hmissing. unfold postClass, Model.saveClass, Model.required.
  cbn [c_standard c_section].
  destruct (Js.truthy (b_standard _)) eqn:Hstd; cbn [negb].
  - destruct Hmissing as [Hm|Hm]; [discriminate|]. rewrite Hm. cbn [negb guard].
    now exists "section".
  - now exists "standard".
Qed.

Lemma postClass_success_inv env ctx st st' resp :
  postClass env ctx st = Respond st' resp ->
  status resp = 200 ->
  classes st !! nextId env = None
  /\ exists c, st' = mkStore (teachers st) (<[nextId env := c]> (classes st))
                             (students st).
Proof.
  unfold postClass, guard, Model.saveClass, send. cbv zeta.
  destruct (negb (Model.required _)); [intros [= <- <-]; discriminate|].
  destruct (negb (Model.required _)); [intros [= <- <-]; discriminate|].
  destruct (classes st !! nextId env) eqn:Hfresh; [intros [= <- <-]; discriminate|].
  intros [= <- <-] _. split; [reflexivity|]. eexists. reflexivity.
Qed.

Lemma postStudent_success_inv env ctx st st' resp :
  postStudent env ctx st = Respond st' resp ->
  status resp = 200 ->
  students st !! nextId env = None
  /\ exists s, st' = mkStore (teachers st) (classes st)
                             (<[nextId env := s]> (students st)).
Proof.
  unfold postStudent, guard, Model.saveStudent, send. cbv zeta.
  destruct (students st !! nextId env) eqn:Hfresh; [intros [= <- <-]; discriminate|].
  intros [= <- <-] _. split; [reflexivity|]. eexists. reflexivity.
Qed.

(** Creating a class or a student and then deleting the identity it was
    given puts the whole store back as it was before the creation. *)
Theorem create_then_delete_restores env env' ctx ctx' st st1 resp :
  params_id (req ctx') = nextId env ->
  status resp = 200 ->
  (postClass env ctx st = Respond st1 resp ->
   deleteClass env' ctx' st1
   = Respond st (send (JMessage "Class deleted successfully")))
  /\ (postStudent env ctx st = Respond st1 resp ->
      deleteStudent env' ctx' st1
      = Respond st (send (JMessage "Student deleted successfully"))).
Proof.
  intros Hid Hok. split; intros Hpost.
  - destruct (postClass_success_inv _ _ _ _ _ Hpost Hok) as (Hfresh & c & ->).
    unfold deleteClass, Model.findByIdAndDelete. cbv zeta. cbn [classes teachers students].
    rewrite Hid, (delete_insert_id _ _ _ Hfresh), store_eta. reflexivity.
  - destruct (postStudent_success_inv _ _ _ _ _ Hpost Hok) as (Hfresh & s & ->).
    unfold deleteStudent, Model.findByIdAndDelete. cbv zeta.
    cbn [classes teachers students].
    rewrite Hid, (delete_insert_id _ _ _ Hfresh), store_eta. reflexivity.
Qed.

End EntityCreation.

(* ===================================================================== *)
(** ** What the gate and the validators let through *)
(* ===================================================================== *)

Module SplitFacts.

(** No piece of a split holds the separator. *)
Lemma split_pieces_free sep s :
  Forall (fun w => Js.free_of sep w = true) (Js.split sep s).
Proof.
  induction s as [|c s IH]; simpl; [repeat constructor|].
  destruct (Ascii.eqb c sep) eqn:Hc.
  - constructor; [reflexivity|exact IH].
  - destruct (Js.split sep s) as [|w ws]; [repeat constructor; simpl; now rewrite Hc|].
    inversion IH as [|? ? Hw Hws]; subst.
    constructor; [simpl; now rewrite Hc, Hw|exact Hws].
Qed.

End SplitFacts.

Section AccessFacts.
Context {ext : Collaborators}.

Lemma tokenOf_free h t : tokenOf h = Some t -> Js.free_of " " t = true.
Proof.
  destruct h as [h|]; [|discriminate]. unfold tokenOf, Js.and_then.
  destruct (Js.truthy (Some h)) eqn:Htr.
  - change (Js.index (Js.split " " h) 1 = Some t -> Js.free_of " " t = true).
    unfold Js.index. intros Hnth.
    pose proof (SplitFacts.split_pieces_free " " h) as Hall.
    rewrite Forall_forall in Hall. apply Hall.
    eapply nth_error_In; exact Hnth.
  - simpl in Htr. apply negb_false_iff, String.eqb_eq in Htr. subst h.
    intros [= <-]. reflexivity.
Qed.

Lemma tokenOf_ignores_rest scheme tok rest :
  Js.free_of " " scheme = true -> Js.free_of " " tok = true ->
  tokenOf (Some (scheme +:+ " " +:+ tok +:+ " " +:+ rest)) = Some tok.
Proof.
  intros Hs Ht. unfold tokenOf, Js.and_then.
  change (scheme +:+ " " +:+ tok +:+ " " +:+ rest)
    with (scheme +:+ String " " (tok +:+ String " " rest)).
  simpl. rewrite JsFacts.app_sep_nonempty. simpl.
  rewrite (JsFacts.split_app _ _ _ Hs), (JsFacts.split_app _ _ _ Ht).
  reflexivity.
Qed.

(** The gate reads the second word of the header and nothing after it:
    with further words behind the token the outcome is that of the token
    alone, so two spaces after the scheme word make the token empty and
    the answer 401, whatever follows.  The token handed to jsonwebtoken
    never holds a space. *)
Theorem gate_reads_second_word_only scheme tok rest env ctx st :
  Js.free_of " " scheme = true ->
  Js.free_of " " tok = true ->
  authorization (req ctx) = Some (scheme +:+ " " +:+ tok +:+ " " +:+ rest) ->
  authenticateToken env ctx st
  = (if String.eqb tok "" then Respond st unauthenticated
     else match jwt_verify tok (JWT_SECRET env) (clock env) with
          | inr verified => Next (mkCtx (req ctx) (errors ctx) (Some verified)) st
          | inl _ => Respond st badToken
          end)
  /\ (forall t, tokenOf (authorization (req ctx)) = Some t -> Js.free_of " " t = true).
Proof.
  intros Hs Ht Hh. split.
  - unfold authenticateToken. rewrite Hh, (tokenOf_ignores_rest _ _ _ Hs Ht).
    simpl. destruct (String.eqb tok ""); reflexivity.
  - intros t. apply tokenOf_free.
Qed.

Lemma protected_handler ep :
  protected ep = true -> chain ep = [authenticateToken; handlerOf ep].
Proof. destruct ep; simpl; intros Hp; try discriminate; reflexivity. Qed.

(** A handler behind the gate reads the path parameter and the body, and
    nothing else of the request. *)
Lemma handler_reads_demand ep env ctx1 ctx2 st :
  protected ep = true ->
  sameDemand (req ctx1) (req ctx2) ->
  handlerOf ep env ctx1 st = handlerOf ep env ctx2 st.
Proof.
  intros Hp [Hid Hb].
  destruct ep; try discriminate; cbn [handlerOf];
    unfold postClass, putClass, deleteClass, getClasses,
           postStudent, putStudent, deleteStudent, getStudents;
    cbv zeta; rewrite ?Hid, ?Hb; reflexivity.
Qed.

(** Behind the gate every valid token is worth the same: on a protected
    endpoint, two requests that the gate lets through and that have the
    same path parameter and body get the same answer and leave the same
    store, whoever their tokens identify. *)
Theorem any_valid_token_gives_the_same_access ep env r1 r2 st :
  protected ep = true ->
  authenticated env r1 ->
  authenticated env r2 ->
  sameDemand r1 r2 ->
  serve ep env r1 st = serve ep env r2 st.
Proof.
  intros Hp H1 H2 Hsame.
  destruct (serve_authenticated ep _ env r1 st (protected_handler ep Hp) H1) as [v1 ->].
  destruct (serve_authenticated ep _ env r2 st (protected_handler ep Hp) H2) as [v2 ->].
  cbn [run]. now rewrite (handler_reads_demand ep env _ (mkCtx r2 [] (Some v2)) st Hp).
Qed.

(** The student listings resolve two levels and embed what they find
    whole: a student whose class is stored and whose class's teacher is
    stored is listed with that class and, inside it, that teacher's full
    stored document (its [password] field included).  GET
    /public/students does so for every request, with or without an
    [Authorization] header. *)
Theorem listing_embeds_class_and_teacher env r st sid s cid c tid t :
  students st !! sid = Some s ->
  s_classId s = Some cid ->
  classes st !! cid = Some c ->
  c_teacherId c = Some tid ->
  teachers st !! tid = Some t ->
  exists l p pc,
    serve GetPublicStudents env r st = (st, Some (send (JStudents l)))
    /\ In p l
    /\ ps_id p = sid
    /\ ps_classId p = Some pc
    /\ pc_id pc = cid /\ pc_standard pc = c_standard c
    /\ pc_teacherId pc = Some (tid, t).
Proof.
  intros Hs Hcid Hc Htid Ht.
  exists (Model.findStudents st), (Model.populateStudent st (sid, s)),
         (Model.populateClass st (cid, c)).
  split; [reflexivity|]. split; [now apply findStudents_complete|].
  split; [reflexivity|]. split.
  - simpl. rewrite Hcid. simpl. now rewrite Hc.
  - split; [reflexivity|]. split; [reflexivity|].
    simpl. rewrite Htid. simpl. now rewrite Ht.
Qed.


End AccessFacts.

(* ===================================================================== *)
(** ** The trim setter *)
(* ===================================================================== *)

Module TrimFacts.

Lemma app_nil_r (s : string) : s +:+ "" = s.
Proof.
  induction s as [|c s IH]; [reflexivity|].
  change (String c (s +:+ "") = String c s). now rewrite IH.
Qed.

Lemma app_assoc (a b c : string) : (a +:+ b) +:+ c = a +:+ b +:+ c.
Proof.
  induction a as [|x a IH]; [reflexivity|].
  change (String x ((a +:+ b) +:+ c) = String x (a +:+ b +:+ c)).
  now rewrite IH.
Qed.
















End TrimFacts.

Section TrimInvariant.
Context {ext : Collaborators}.




End TrimInvariant.

(* ===================================================================== *)
(** ** The properties above on the sample data *)
(* ===================================================================== *)

Module ScenarioFacts.

Lemma registration_ran :
  serve (ext := Sample.collaborators) PostRegister Sample.env
        Sample.newTeacherRequest Sample.store
  = (Scenario.registered,
     Some (send (JUser (7, Scenario.newTeacher) "Registration is done successfully"))).
Proof. vm_compute. reflexivity. Qed.

Lemma sample_unique : uniqueEmails Sample.store.
Proof.
  intros id1 id2 t1 t2 H1 H2 _. unfold Sample.store in H1, H2. cbn [teachers] in H1, H2.
  apply lookup_singleton_Some in H1 as [<- _].
  apply lookup_singleton_Some in H2 as [<- _]. reflexivity.
Qed.


Lemma other_ok id b :
  authenticated (ext := Sample.collaborators) Sample.env
                (Scenario.asTeacher Scenario.otherToken id b).
Proof.
  exists Scenario.otherToken, (mkJwtPayload 2 1000 4600).
  split; [split; [vm_compute; reflexivity|discriminate]|vm_compute; reflexivity].
Qed.

Lemma sample_ok id b :
  authenticated (ext := Sample.collaborators) Sample.env
                (Scenario.asTeacher Sample.token id b).
Proof.
  exists Sample.token, (mkJwtPayload 1 1000 4600).
  split; [split; [vm_compute; reflexivity|discriminate]|vm_compute; reflexivity].
Qed.

End ScenarioFacts.

Lemma email_uniqueness_is_invariant_witness :
  uniqueEmails (fst (serve (ext := Sample.collaborators) PostRegister Sample.env
                           Sample.newTeacherRequest Sample.store)).
Proof.
  exact (email_uniqueness_is_invariant (ext := Sample.collaborators) PostRegister
           Sample.env Sample.newTeacherRequest Sample.store ScenarioFacts.sample_unique).
Defined.

Lemma second_registration_is_rejected_witness :
  serve (ext := Sample.collaborators) PostRegister Scenario.later
        Scenario.sameEmailAgain Scenario.registered
  = (Scenario.registered, Some (mkResponse 400 (JMessage "Email already exists"))).
Proof.
  exact (second_registration_is_rejected (ext := Sample.collaborators)
           Sample.env Scenario.later Sample.newTeacherRequest Scenario.sameEmailAgain
           Sample.store Scenario.registered _ "b@x.com" "b@x.com"
           ScenarioFacts.registration_ran eq_refl eq_refl eq_refl eq_refl
           ltac:(vm_compute; reflexivity)).
Defined.

Lemma registered_teacher_can_log_in_witness :
  exists t tok,
    serve (ext := Sample.collaborators) PostLogin Scenario.later
          Scenario.newTeacherLogin Scenario.registered
    = (Scenario.registered, Some (send (JLogin (7, t) tok "Login successful"))).
Proof.
  destruct (registered_teacher_can_log_in (ext := Sample.collaborators)
              Sample.env Scenario.later Sample.newTeacherRequest
              Scenario.newTeacherLogin Sample.store Scenario.registered _
              "b@x.com" "password1"
              (TokenService.tokenFor Sample.hmac "s3cret" (mkJwtPayload 7 2000 5600))
              ScenarioFacts.registration_ran eq_refl eq_refl eq_refl eq_refl eq_refl
              ltac:(vm_compute; reflexivity) ltac:(vm_compute; reflexivity))
    as (t & _ & _ & Hlogin).
  exists t, (TokenService.tokenFor Sample.hmac "s3cret" (mkJwtPayload 7 2000 5600)).
  exact Hlogin.
Defined.

Lemma class_listing_complete_witness :
  serve (ext := Sample.collaborators) GetClasses Sample.env
        (Sample.authorised 0) Sample.store
  = (Sample.store, Some (send (JClasses (Model.findClasses Sample.store))))
  /\ In (mkPopulatedClass 2 (Some "5") (Some "A") "ACTIVE" (Some (1, Sample.alice)))
        (Model.findClasses Sample.store).
Proof.
  split.
  - exact (proj1 (class_listing_complete (ext := Sample.collaborators)
                    Sample.env (Sample.authorised 0) Sample.store)
                 (RepositorySamples.authorised_ok 0)).
  - vm_compute. tauto.
Defined.




Lemma class_needs_standard_and_section_witness :
  exists path,
    postClass Sample.env (initCtx (Scenario.asTeacher Sample.token 0 emptyBody))
              Sample.store
    = Respond Sample.store (mkResponse 500 (JError (ValidationFailed path))).
Proof.
  exact (class_needs_standard_and_section Sample.env
           (initCtx (Scenario.asTeacher Sample.token 0 emptyBody)) Sample.store
           (or_introl eq_refl)).
Defined.

Lemma create_then_delete_restores_witness :
  deleteStudent Scenario.later
    (initCtx (Scenario.asTeacher Sample.token 7 emptyBody)) Scenario.withDan
  = Respond Sample.store (send (JMessage "Student deleted successfully")).
Proof.
  exact (proj2 (create_then_delete_restores Sample.env Scenario.later
                  (initCtx (Scenario.asTeacher Sample.token 0
                              (Scenario.studentBody (Some "Dan") (Some 2))))
                  (initCtx (Scenario.asTeacher Sample.token 7 emptyBody))
                  Sample.store Scenario.withDan
                  (send (JStudent (Some (7, Scenario.dan)) "Student added successfully"))
                  eq_refl eq_refl)
               ltac:(vm_compute; reflexivity)).
Defined.

Lemma gate_reads_second_word_only_witness :
  authenticateToken (ext := Sample.collaborators) Sample.env
    (initCtx (Sample.with_header "Bearer  left over")) Sample.store
  = Respond Sample.store unauthenticated.
Proof.
  exact (proj1 (gate_reads_second_word_only (ext := Sample.collaborators)
                  "Bearer" "" "left over" Sample.env
                  (initCtx (Sample.with_header "Bearer  left over")) Sample.store
                  eq_refl eq_refl eq_refl)).
Defined.

Lemma any_valid_token_gives_the_same_access_witness :
  serve (ext := Sample.collaborators) DeleteClass Sample.env
        (Scenario.asTeacher Sample.token 2 emptyBody) Sample.store
  = serve (ext := Sample.collaborators) DeleteClass Sample.env
          (Scenario.asTeacher Scenario.otherToken 2 emptyBody) Sample.store.
Proof.
  exact (any_valid_token_gives_the_same_access (ext := Sample.collaborators)
           DeleteClass Sample.env
           (Scenario.asTeacher Sample.token 2 emptyBody)
           (Scenario.asTeacher Scenario.otherToken 2 emptyBody)
           Sample.store eq_refl
           (ScenarioFacts.sample_ok 2 emptyBody) (ScenarioFacts.other_ok 2 emptyBody)
           (conj eq_refl eq_refl)).
Defined.

Lemma listing_embeds_class_and_teacher_witness :
  exists l p pc,
    serve (ext := Sample.collaborators) GetPublicStudents Sample.env
          Sample.bare Sample.store
    = (Sample.store, Some (send (JStudents l)))
    /\ In p l /\ ps_id p = 3
    /\ ps_classId p = Some pc
    /\ pc_teacherId pc = Some (1, Sample.alice).
Proof.
  destruct (listing_embeds_class_and_teacher (ext := Sample.collaborators)
              Sample.env Sample.bare Sample.store 3 Sample.bob 2 Sample.class5A
              1 Sample.alice
              ltac:(vm_compute; reflexivity) eq_refl ltac:(vm_compute; reflexivity)
              eq_refl ltac:(vm_compute; reflexivity))
    as (l & p & pc & Hserve & Hin & Hid & Hclass & _ & _ & Hteacher).
  exists l, p, pc. repeat split; assumption.
Defined.


(* ===================================================================== *)
(** ** What validation on create does not cover *)
(* ===================================================================== *)

Section SchemaFacts.
Context {ext : Collaborators}.

(** The schema's validators run on create only.  POST /class refuses an
    empty [standard] with 500, but PUT /class/:id on a stored class writes
    an empty [standard] and any [status] string it is given, and answers
    200. *)
Theorem update_bypasses_schema_validation env ctx st c status' :
  classes st !! params_id (req ctx) = Some c ->
  b_standard (body (req ctx)) = Some "" ->
  b_status (body (req ctx)) = Some status' ->
  (exists path,
      postClass env ctx st
      = Respond st (mkResponse 500 (JError (ValidationFailed path))))
  /\ (exists st' c',
        putClass env ctx st
        = Respond st' (send (JClass (Some (params_id (req ctx), c'))
                                    "Class updated successfully"))
        /\ classes st' !! params_id (req ctx) = Some c'
        /\ c_standard c' = Some "" /\ c_status c' = status').
Proof.
  intros Hl Hstd Hstatus. split.
  - unfold postClass, Model.saveClass, Model.required. cbn [c_standard].
    rewrite Hstd. cbn [Js.truthy String.eqb negb guard]. now exists "standard".
  - eexists _, _. split; [|split; [|split]].
    + unfold putClass, Model.findByIdAndUpdate. cbv zeta. rewrite Hl. reflexivity.
    + apply lookup_insert_eq.
    + cbn [Model.updateClass c_standard]. now rewrite Hstd.
    + cbn [Model.updateClass c_status]. now rewrite Hstatus.
Qed.



End SchemaFacts.

Module SchemaSamples.


End SchemaSamples.

Lemma update_bypasses_schema_validation_witness :
  exists st' c',
    putClass Sample.env
      (initCtx (Scenario.asTeacher Sample.token 2 Scenario.blankingBody)) Sample.store
    = Respond st' (send (JClass (Some (2, c')) "Class updated successfully"))
    /\ c_standard c' = Some "" /\ c_status c' = "RETIRED".
Proof.
  destruct (update_bypasses_schema_validation Sample.env
              (initCtx (Scenario.asTeacher Sample.token 2 Scenario.blankingBody))
              Sample.store Sample.class5A "RETIRED"
              ltac:(vm_compute; reflexivity) eq_refl eq_refl)
    as (_ & st' & c' & Hput & _ & Hstd & Hstatus).
  exists st', c'. repeat split; assumption.
Defined.

